(** * cmstate-injector-operator: the Pod admission webhook

    A shallow embedding of [webhook/webhook.go] and the properties of its
    admission decision logic: the naming scheme of the state resource, the
    audience protocol on create and delete, and the shape of the admission
    response.

    Go strings are byte sequences and are embedded as [string] (a list of
    [ascii] bytes); Go maps with string keys are [gmap string string]; the
    cluster client, the request decoder and the JSON packages are
    collaborators outside the repository and enter as interfaces. *)

From Stdlib Require Import ZArith Ascii String List Lia Bool.
From stdpp Require Import base option strings gmap list fin_maps.

Local Open Scope string_scope.
Local Open Scope list_scope.
Local Open Scope Z_scope.

(** ** Go's [strings] and [fmt] on byte strings *)

Module GoStrings.

Fixpoint string_map (f : ascii -> ascii) (s : string) : string :=
  match s with
  | EmptyString => EmptyString
  | String c s' => String (f c) (string_map f s')
  end.

Fixpoint string_forallb (p : ascii -> bool) (s : string) : bool :=
  match s with
  | EmptyString => true
  | String c s' => p c && string_forallb p s'
  end.

Definition byte_between (lo hi : N) (c : ascii) : bool :=
  ((lo <=? N_of_ascii c) && (N_of_ascii c <=? hi))%N.

Definition isUpper (c : ascii) : bool := byte_between 65 90 c.
Definition isLower (c : ascii) : bool := byte_between 97 122 c.
Definition isDigit (c : ascii) : bool := byte_between 48 57 c.

(** [c < utf8.RuneSelf] *)
Definition isASCIIByte (c : ascii) : bool := (N_of_ascii c <? 128)%N.
Definition isASCII (s : string) : bool := string_forallb isASCIIByte s.

(** [if 'A' <= c && c <= 'Z' { c += 'a' - 'A' }] *)
Definition lowerByte (c : ascii) : ascii :=
  if isUpper c then ascii_of_N (N_of_ascii c + 32) else c.

Fixpoint hasPrefix (s prefix : string) {struct prefix} : bool :=
  match prefix, s with
  | EmptyString, _ => true
  | String p prefix', String c s' => Ascii.eqb p c && hasPrefix s' prefix'
  | String _ _, EmptyString => false
  end.

(** [strings.CutPrefix]: the rest of [s] after [prefix], when [s] starts
    with it. *)
Fixpoint cutPrefix (s prefix : string) {struct prefix} : option string :=
  match prefix, s with
  | EmptyString, _ => Some s
  | String p prefix', String c s' =>
      if Ascii.eqb p c then cutPrefix s' prefix' else None
  | String _ _, EmptyString => None
  end.

(** [strings.ReplaceAll(s, old, new)] for a non-empty [old] (the only use
    in the webhook): scan left to right, replace each non-overlapping
    occurrence.  [skip] counts the bytes of a matched occurrence that are
    still to be passed over. *)
Fixpoint replaceFrom (old new : string) (skip : nat) (s : string) : string :=
  match s with
  | EmptyString => EmptyString
  | String c s' =>
      match skip with
      | S k => replaceFrom old new k s'
      | O =>
          if hasPrefix s old
          then new +:+ replaceFrom old new (Nat.pred (String.length old)) s'
          else String c (replaceFrom old new O s')
      end
  end.

Definition ReplaceAll (s old new : string) : string := replaceFrom old new O s.

(** [fmt.Sprintf("cmstate-%s", x)] *)
Definition Sprintf_cmstate (x : string) : string := "cmstate-" +:+ x.

Section ToLower.
(** [strings.ToLower] lowers an all-ASCII string byte by byte; any other
    string goes through [strings.Map(unicode.ToLower, s)], which is
    outside this development and is taken as given. *)
Variable unicodeLower : string -> string.

Definition ToLower (s : string) : string :=
  if isASCII s then string_map lowerByte s else unicodeLower s.
End ToLower.

End GoStrings.

Import GoStrings.

(** ** The naming scheme (webhook.go, [generateName]) *)

Section Naming.
Variable unicodeLower : string -> string.

Definition generateName (cmTemplateName : string) : string :=
  ToLower unicodeLower (ReplaceAll (Sprintf_cmstate cmTemplateName) "_" "-").
End Naming.

(** The pattern [cmstate-[a-z0-9-]+] of the specification, as a full match. *)
Definition nameByte (c : ascii) : bool :=
  isLower c || isDigit c || Ascii.eqb c "-".

Definition matches_cmstate_pattern (s : string) : bool :=
  match cutPrefix s "cmstate-" with
  | Some rest => negb (String.eqb rest "") && string_forallb nameByte rest
  | None => false
  end.


(** What [generateName] does to one byte of an ASCII name: the byte-wise
    effect of replacing "_" by "-", then lowering. *)
Definition underscoreToHyphen (c : ascii) : ascii :=
  if Ascii.eqb c "_" then "-"%char else c.

Definition normByte (c : ascii) : ascii := lowerByte (underscoreToHyphen c).

(** Neither an upper-case letter nor an underscore. *)
Definition plainByte (c : ascii) : bool :=
  negb (isUpper c) && negb (Ascii.eqb c "_").

(** ** Kubernetes objects, as far as the webhook reads or writes them *)

(** Reading a Go map: [m[k]] is the zero value when the key is absent. *)
Definition index (m : gmap string string) (k : string) : string :=
  default "" (m !! k).

Module Pod.
Record t := mk {
  Name : string;
  GenerateName : string;
  Namespace : string;
  Annotations : gmap string string
}.
End Pod.

Module CMTemplate.
(** [Spec.Template.AnnotationReplace] is ranged over by key. *)
Record t := mk {
  Name : string;
  AnnotationReplace : gmap string string
}.
Definition zero : t := mk "" ∅.
End CMTemplate.

Module CMAudience.
Record t := mk { Kind : string; Name : string }.
End CMAudience.

Module CMStateSpec.
Record t := mk { Audience : list CMAudience.t; CMTemplate : string }.
End CMStateSpec.

Module CMState.
Record t := mk {
  APIVersion : string;
  Kind : string;
  Name : string;
  Namespace : string;
  Labels : gmap string string;
  Spec : CMStateSpec.t
}.
Definition zero : t := mk "" "" "" "" ∅ (CMStateSpec.mk [] "").

(** [cmState.Spec.Audience = audience] *)
Definition setAudience (cmState : t) (audience : list CMAudience.t) : t :=
  mk (APIVersion cmState) (Kind cmState) (Name cmState) (Namespace cmState)
     (Labels cmState)
     (CMStateSpec.mk audience (CMStateSpec.CMTemplate (Spec cmState))).
End CMState.

Record NamespacedName := { nnNamespace : string; nnName : string }.

(** ** Errors *)

Inductive StatusReason :=
| StatusReasonNotFound
| StatusReasonAlreadyExists
| StatusReasonConflict
| StatusReasonInternalError.

(** Go [error] values: API status errors of the client, plain errors, and
    the wrapper of [errors.Wrap]. *)
Inductive error :=
| StatusError (reason : StatusReason) (message : string)
| errorString (message : string)
| withMessage (cause : error) (message : string).

Fixpoint Error (err : error) : string :=
  match err with
  | StatusError _ message => message
  | errorString message => message
  | withMessage cause message => message +:+ ": " +:+ Error cause
  end.

Definition Wrap (err : error) (message : string) : error :=
  withMessage err message.

Fixpoint IsNotFound (err : error) : bool :=
  match err with
  | StatusError StatusReasonNotFound _ => true
  | StatusError _ _ => false
  | errorString _ => false
  | withMessage cause _ => IsNotFound cause
  end.

(** ** Admission requests and responses (controller-runtime) *)

Module v1admission.
Inductive Operation := Create | Update | Delete | Connect.
End v1admission.

Module Request.
(** [req.Operation] and [req.Object.Raw]. *)
Record t := mk { Operation : v1admission.Operation; Object_Raw : string }.
End Request.

Module JsonPatchOperation.
Record t := mk { Operation : string; Path : string; Value : string }.
End JsonPatchOperation.

Module Status.
Record t := mk { Code : Z; Reason : string; Message : string }.
End Status.

Module Response.
Record t := mk {
  Allowed : bool;
  Result : option Status.t;
  Patches : list JsonPatchOperation.t;
  PatchType : option string
}.
End Response.

Definition StatusOK : Z := 200.
Definition StatusForbidden : Z := 403.
Definition StatusInternalServerError : Z := 500.

Module admission.

Definition ValidationResponse (allowed : bool) (message : string) : Response.t :=
  {| Response.Allowed := allowed;
     Response.Result :=
       Some {| Status.Code := if allowed then StatusOK else StatusForbidden;
               Status.Reason := if allowed then "" else "Forbidden";
               Status.Message := message |};
     Response.Patches := [];
     Response.PatchType := None |}.

Definition Allowed (message : string) : Response.t :=
  ValidationResponse true message.

Definition Denied (message : string) : Response.t :=
  ValidationResponse false message.

Definition Errored (code : Z) (err : error) : Response.t :=
  {| Response.Allowed := false;
     Response.Result :=
       Some {| Status.Code := code;
               Status.Reason := "";
               Status.Message := Error err |};
     Response.Patches := [];
     Response.PatchType := None |}.

Section Patch.
(** [jsonpatch.CreatePatch], the structural diff of two JSON documents. *)
Variable CreatePatch : string -> string -> error + list JsonPatchOperation.t.

Definition PatchResponseFromRaw (original current : string) : Response.t :=
  match CreatePatch original current with
  | inl err => Errored StatusInternalServerError err
  | inr patches =>
      {| Response.Allowed := true;
         Response.Result := None;
         Response.Patches := patches;
         Response.PatchType := match patches with
                               | [] => None
                               | _ :: _ => Some "JSONPatch"
                               end |}
  end.
End Patch.

End admission.

(** ** The cluster client and the calls made on it *)

(** One entry per call on [hook.Client]; the interface also offers Update
    and Delete. *)
Inductive Call :=
| CallGetCMState (key : NamespacedName)
| CallGetCMTemplate (key : NamespacedName)
| CallCreate (obj : CMState.t)
| CallPatch (obj : CMState.t)
| CallUpdate (obj : CMState.t)
| CallDelete (obj : CMState.t).

Definition isRead (c : Call) : bool :=
  match c with
  | CallGetCMState _ | CallGetCMTemplate _ => true
  | _ => false
  end.

Definition isWrite (c : Call) : bool := negb (isRead c).


Module client.
(** [client.Client] over a store of type [Σ], as far as the webhook calls
    it.  A [Get] either fails or yields the object; [Create] and
    [Patch(ctx, obj, client.Merge)] report an error or none.  The object
    handed to [Create] carries its name, which the call does not change. *)
Record Client (Σ : Type) := mk {
  GetCMState : NamespacedName -> Σ -> (error + CMState.t) * Σ;
  GetCMTemplate : NamespacedName -> Σ -> (error + CMTemplate.t) * Σ;
  Create : CMState.t -> Σ -> option error * Σ;
  PatchMerge : CMState.t -> Σ -> option error * Σ
}.
Arguments mk {Σ}.
Arguments GetCMState {Σ}.
Arguments GetCMTemplate {Σ}.
Arguments Create {Σ}.
Arguments PatchMerge {Σ}.
End client.

(** The world a request runs in: the store behind the client and the log of
    the calls made so far. *)
Record World (Σ : Type) := mkWorld { store : Σ; calls : list Call }.
Arguments mkWorld {Σ}.
Arguments store {Σ}.
Arguments calls {Σ}.

Definition M (Σ A : Type) : Type := World Σ -> A * World Σ.

Definition ret {Σ A} (a : A) : M Σ A := fun w => (a, w).

Definition bind {Σ A B} (m : M Σ A) (k : A -> M Σ B) : M Σ B :=
  fun w => let (a, w') := m w in k a w'.

Declare Scope go_scope.
Delimit Scope go_scope with go.
Notation "x <- m ;; k" := (bind m (fun x => k))
  (at level 100, m at next level, right associativity) : go_scope.

(** Run one client call against the store and log it. *)
Definition perform {Σ A} (c : Call) (op : Σ -> A * Σ) : M Σ A :=
  fun w => let (a, s') := op (store w) in
           (a, {| store := s'; calls := calls w ++ [c] |}).

(** [err := c.Get(ctx, key, obj)]: on failure [obj] keeps its value. *)
Definition Get {Σ T} (c : Call) (op : Σ -> (error + T) * Σ) (obj : T)
  : M Σ (T * option error) :=
  (r <- perform c op ;;
   ret (match r with
        | inl err => (obj, Some err)
        | inr found => (found, None)
        end))%go.

(** ** The webhook (webhook.go) *)

Module Decoder.
(** [hook.decoder.Decode(req, pod)] *)
Record t := mk { Decode : Request.t -> error + Pod.t }.
End Decoder.

Record cmStateCreator (Σ : Type) := {
  Client : client.Client Σ;
  decoder : Decoder.t
}.
Arguments Client {Σ}.
Arguments decoder {Σ}.

(** What [handleInner] hands back: [(&resp, nil)], [(nil, err)] or
    [(&resp, err)]. *)
Inductive innerResult :=
| RespOnly (resp : Response.t)
| ErrOnly (err : error)
| RespAndErr (resp : Response.t) (err : error).

Definition cmtemplateAnnotation : string := "cache.spices.dev/cmtemplate".
Definition agentConfigmapAnnotation : string := "vault.hashicorp.com/agent-configmap".

Fixpoint findIndexFrom (i : Z) (slice : list CMAudience.t) (name : string) : Z :=
  match slice with
  | [] => -1
  | aud :: rest =>
      if String.eqb (CMAudience.Name aud) name then i
      else findIndexFrom (i + 1) rest name
  end.

Definition findIndex (slice : list CMAudience.t) (name : string) : Z :=
  findIndexFrom 0 slice name.

(** [append(a[:index], a[index+1:]...)] *)
Definition spliceOut (a : list CMAudience.t) (index : Z) : list CMAudience.t :=
  take (Z.to_nat index) a ++ drop (Z.to_nat (index + 1)) a.

(** The name [handlePodDelete] looks for in the audience (lines 111-114). *)
Definition deletePodName (pod : Pod.t) : string :=
  if negb (String.eqb (Pod.GenerateName pod) "") then Pod.GenerateName pod
  else Pod.Name pod.

(** [pod.Annotations[key] = value] *)
Definition setAnnotation (pod : Pod.t) (key value : string) : Pod.t :=
  Pod.mk (Pod.Name pod) (Pod.GenerateName pod) (Pod.Namespace pod)
         (<[key := value]> (Pod.Annotations pod)).

(** [pod.Annotations["cache.spices.dev/cmtemplate"]] *)
Definition templateOf (pod : Pod.t) : string :=
  index (Pod.Annotations pod) cmtemplateAnnotation.

Section Webhook.
Context {Σ : Type}.
Variable unicodeLower : string -> string.
(** [json.Marshal(pod)] *)
Variable Marshal : Pod.t -> error + string.
Variable CreatePatch : string -> string -> error + list JsonPatchOperation.t.

Definition generateCMState (cmTemplate : CMTemplate.t) (pod : Pod.t) : CMState.t :=
  let annotations := Pod.Annotations pod in
  let labels :=
    map_fold (fun annotation _ labels =>
                <[annotation := index annotations annotation]> labels)
             (∅ : gmap string string)
             (CMTemplate.AnnotationReplace cmTemplate) in
  let podName :=
    if String.eqb (Pod.Name pod) "" then Pod.GenerateName pod
    else Pod.Name pod in
  {| CMState.APIVersion := "cache.spices.dev/v1alpha1";
     CMState.Kind := "CMState";
     CMState.Name := generateName unicodeLower (CMTemplate.Name cmTemplate);
     CMState.Namespace := Pod.Namespace pod;
     CMState.Labels := labels;
     CMState.Spec :=
       {| CMStateSpec.Audience :=
            [ {| CMAudience.Kind := "Pod"; CMAudience.Name := podName |} ];
          CMStateSpec.CMTemplate := CMTemplate.Name cmTemplate |} |}.

(** The two keys [handleInner] looks up (lines 66-72 and 82-84). *)
Definition stateKey (pod : Pod.t) : NamespacedName :=
  let crdName := generateName unicodeLower (templateOf pod) in
  {| nnNamespace := Pod.Namespace pod; nnName := crdName |}.

Definition templateKey (pod : Pod.t) : NamespacedName :=
  {| nnNamespace := ""; nnName := templateOf pod |}.

Variable hook : cmStateCreator Σ.

Definition handlePodDelete (cmState : CMState.t) (pod : Pod.t) : M Σ innerResult :=
  if String.eqb (CMState.Name cmState) "" then
    ret (RespOnly (admission.Allowed "skipping cmstate patch due to missing cmstate"))
  else
    let podName := deletePodName pod in
    let index := findIndex (CMStateSpec.Audience (CMState.Spec cmState)) podName in
    if index =? -1 then
      ret (RespOnly (admission.Allowed "skipping cmstate patch due to pod not in audience"))
    else
      let cmState :=
        CMState.setAudience cmState
          (spliceOut (CMStateSpec.Audience (CMState.Spec cmState)) index) in
      (err <- perform (CallPatch cmState)
                      (client.PatchMerge (Client hook) cmState) ;;
       match err with
       | Some err =>
           ret (RespAndErr
                  (admission.Denied "patching cmstate has resulted in an error") err)
       | None =>
           ret (RespOnly
                  (admission.Allowed "cmstate has been patched, no need to mutate pod"))
       end)%go.

Definition handlePodCreate (req : Request.t) (cmState : CMState.t)
    (cmTemplate : CMTemplate.t) (pod : Pod.t) : M Σ innerResult :=
  (created <-
     (if String.eqb (CMState.Name cmState) "" then
        let cmState := generateCMState cmTemplate pod in
        (err <- perform (CallCreate cmState)
                        (client.Create (Client hook) cmState) ;;
         ret (cmState, err))
      else ret (cmState, None)) ;;
   match created with
   | (_, Some err) =>
       ret (RespAndErr
              (admission.Denied "creating cmstate has resulted in an error") err)
   | (cmState, None) =>
       let pod := setAnnotation pod agentConfigmapAnnotation (CMState.Name cmState) in
       match Marshal pod with
       | inl err => ret (ErrOnly (Wrap err "error encoding response object"))
       | inr pData =>
           ret (RespOnly
                  (admission.PatchResponseFromRaw CreatePatch
                     (Request.Object_Raw req) pData))
       end
   end)%go.

Definition handleInner (req : Request.t) : M Σ innerResult :=
  let skip :=
    ret (RespOnly (admission.Allowed "skipping cmstate check due to missing annotation")) in
  match Decoder.Decode (decoder hook) req with
  | inl err => ret (ErrOnly (Wrap err "error decoding request into Pod"))
  | inr pod =>
      if negb (String.eqb (templateOf pod) "") then
        let stateKey := stateKey pod in
        let templateKey := templateKey pod in
        (got <- Get (CallGetCMState stateKey)
                    (client.GetCMState (Client hook) stateKey) CMState.zero ;;
         let (cmState, err) := got : CMState.t * option error in
         match err, from_option (fun e => negb (IsNotFound e)) false err with
         | Some err, true =>
             ret (ErrOnly (Wrap err "fetching cmstate has resulted in an error"))
         | _, _ =>
             got <- Get (CallGetCMTemplate templateKey)
                        (client.GetCMTemplate (Client hook) templateKey)
                        CMTemplate.zero ;;
             let (cmTemplate, err) := got : CMTemplate.t * option error in
             match err with
             | Some err =>
                 if negb (IsNotFound err) then
                   ret (ErrOnly (Wrap err "fetching cmtemplate has resulted in an error"))
                 else
                   ret (ErrOnly (Wrap err "fetching cmtemplate has resulted in an error"))
             | None =>
                 match Request.Operation req with
                 | v1admission.Create =>
                     handlePodCreate req cmState cmTemplate pod
                 | v1admission.Delete => handlePodDelete cmState pod
                 | _ => skip
                 end
             end
         end)%go
      else skip
  end.

Definition Handle (req : Request.t) : M Σ Response.t :=
  (r <- handleInner req ;;
   ret (match r with
        | RespOnly resp => resp
        | ErrOnly err | RespAndErr _ err =>
            admission.Errored StatusInternalServerError err
        end))%go.
End Webhook.

(** ** Vocabulary for the statements *)

(** What [cmState] holds once the state lookup has returned. *)
Definition foundOrZero (r : error + CMState.t) : CMState.t :=
  match r with
  | inr found => found
  | inl _ => CMState.zero
  end.

(** The state lookup does not abort the request: it found the resource or
    reported it missing. *)
Definition tolerated (r : error + CMState.t) : bool :=
  match r with
  | inr _ => true
  | inl err => IsNotFound err
  end.

(** The result of the create path once the state resource is settled
    (lines 146-154): the annotated Pod, serialised and diffed. *)
Definition patchOutcome (Marshal : Pod.t -> error + string)
    (CreatePatch : string -> string -> error + list JsonPatchOperation.t)
    (req : Request.t) (pod : Pod.t) (name : string) : innerResult :=
  match Marshal (setAnnotation pod agentConfigmapAnnotation name) with
  | inl err => ErrOnly (Wrap err "error encoding response object")
  | inr pData =>
      RespOnly (admission.PatchResponseFromRaw CreatePatch
                  (Request.Object_Raw req) pData)
  end.

(** ** Test doubles for the collaborators *)

Module Fake.

(** An in-memory store in the manner of controller-runtime's fake client:
    state resources by namespace and name, templates by name. *)
Record Store := mkStore {
  states : gmap (string * string) CMState.t;
  templates : gmap string CMTemplate.t
}.

Definition keyOf (key : NamespacedName) : string * string :=
  (nnNamespace key, nnName key).

Definition notFound : error := StatusError StatusReasonNotFound "not found".
Definition alreadyExists : error :=
  StatusError StatusReasonAlreadyExists "already exists".
Definition unavailable : error := errorString "etcdserver: request timed out".

Definition memClient : client.Client Store :=
  client.mk
    (fun key s =>
       (match states s !! keyOf key with
        | Some obj => inr obj
        | None => inl notFound
        end, s))
    (fun key s =>
       (match templates s !! nnName key with
        | Some obj => inr obj
        | None => inl notFound
        end, s))
    (fun obj s =>
       let k := (CMState.Namespace obj, CMState.Name obj) in
       match states s !! k with
       | Some _ => (Some alreadyExists, s)
       | None => (None, mkStore (<[k := obj]> (states s)) (templates s))
       end)
    (fun obj s =>
       let k := (CMState.Namespace obj, CMState.Name obj) in
       match states s !! k with
       | Some _ => (None, mkStore (<[k := obj]> (states s)) (templates s))
       | None => (Some notFound, s)
       end).

(** A client that sees the store like [memClient] but whose writes are
    refused with [err] (a lost race, an unavailable backend). *)
Definition refusingClient (err : error) : client.Client Store :=
  client.mk
    (client.GetCMState memClient)
    (client.GetCMTemplate memClient)
    (fun _ s => (Some err, s))
    (fun _ s => (Some err, s)).

(** A decoder that yields [pod] for any request with a body. *)
Definition decoderOf (pod : Pod.t) : Decoder.t :=
  Decoder.mk (fun req =>
    if String.eqb (Request.Object_Raw req) ""
    then inl (errorString "there is no content to decode")
    else inr pod).

Definition renderAnnotation (kv : string * string) : string :=
  fst kv +:+ "=" +:+ snd kv +:+ ";".

(** A stand-in for [json.Marshal]: name, namespace and annotations. *)
Definition Marshal (pod : Pod.t) : error + string :=
  inr (Pod.Namespace pod +:+ "/" +:+ Pod.Name pod +:+ " "
       +:+ String.concat "" (map renderAnnotation
                               (map_to_list (Pod.Annotations pod)))).

(** A stand-in for [jsonpatch.CreatePatch]: no operation for equal
    documents, else one replacement of the whole document. *)
Definition CreatePatch (original current : string)
  : error + list JsonPatchOperation.t :=
  if String.eqb original current then inr []
  else inr [ JsonPatchOperation.mk "replace" "" current ].

Definition hookOn (c : client.Client Store) (pod : Pod.t) : cmStateCreator Store :=
  {| Client := c; decoder := decoderOf pod |}.

Definition fooBarTemplate : CMTemplate.t :=
  CMTemplate.mk "Foo_Bar" {[ "vault.hashicorp.com/role" := "" ]}.

Definition app1 : Pod.t :=
  Pod.mk "app-1" "" "ns" {[ cmtemplateAnnotation := "Foo_Bar" ]}.

Definition emptyCluster : Store :=
  mkStore ∅ {[ "Foo_Bar" := fooBarTemplate ]}.

Definition plainPod : Pod.t := Pod.mk "web-1" "" "ns" ∅.

(** A Pod of a generating controller, as it looks on deletion. *)
Definition app1Generated : Pod.t :=
  Pod.mk "app-1" "app-" "ns" {[ cmtemplateAnnotation := "Foo_Bar" ]}.

Definition podEntry (name : string) : CMAudience.t := CMAudience.mk "Pod" name.

Definition fooBarState (audience : list CMAudience.t) : CMState.t :=
  CMState.mk "cache.spices.dev/v1alpha1" "CMState" "cmstate-foo-bar" "ns" ∅
             (CMStateSpec.mk audience "Foo_Bar").

Definition clusterWith (cmState : CMState.t) : Store :=
  mkStore {[ ("ns", "cmstate-foo-bar") := cmState ]}
          {[ "Foo_Bar" := fooBarTemplate ]}.

(** A cluster in which the template has gone. *)
Definition clusterWithoutTemplate : Store := mkStore ∅ ∅.

Definition fresh (s : Store) : World Store := mkWorld s [].

Definition createReq : Request.t := Request.mk v1admission.Create "raw-pod".
Definition deleteReq : Request.t := Request.mk v1admission.Delete "raw-pod".
Definition updateReq : Request.t := Request.mk v1admission.Update "raw-pod".

(** A client whose state lookups fail with [err]. *)
Definition stateOutage (err : error) : client.Client Store :=
  client.mk
    (fun _ s => (inl err, s))
    (client.GetCMTemplate memClient)
    (client.Create memClient)
    (client.PatchMerge memClient).

(** A client whose template lookups fail with [err]. *)
Definition templateOutage (err : error) : client.Client Store :=
  client.mk
    (client.GetCMState memClient)
    (fun _ s => (inl err, s))
    (client.Create memClient)
    (client.PatchMerge memClient).

Definition unsupported : error := errorString "json: unsupported value".

(** A [json.Marshal] that fails. *)
Definition failingMarshal (pod : Pod.t) : error + string := inl unsupported.

(** A request without an object body. *)
Definition bodilessReq : Request.t := Request.mk v1admission.Delete "".

End Fake.

(** ** The paths through [handleInner] *)

Section Paths.

Context {Σ : Type}.
Variable unicodeLower : string -> string.
Variable Marshal : Pod.t -> error + string.
Variable CreatePatch : string -> string -> error + list JsonPatchOperation.t.
Variable hook : cmStateCreator Σ.

(** [Path req r made]: a run of [handleInner] on [req] may return [r] after
    the client calls [made].  One constructor per return statement of
    [handleInner], [handlePodCreate] and [handlePodDelete], in source
    order. *)
Inductive Path (req : Request.t) : innerResult -> list Call -> Prop :=
| PathDecodeError err :
    Decoder.Decode (decoder hook) req = inl err ->
    Path req (ErrOnly (Wrap err "error decoding request into Pod")) []
| PathStateError pod err :
    Decoder.Decode (decoder hook) req = inr pod ->
    templateOf pod <> "" ->
    IsNotFound err = false ->
    Path req (ErrOnly (Wrap err "fetching cmstate has resulted in an error"))
         [CallGetCMState (stateKey unicodeLower pod)]
| PathTemplateError pod err :
    Decoder.Decode (decoder hook) req = inr pod ->
    templateOf pod <> "" ->
    Path req (ErrOnly (Wrap err "fetching cmtemplate has resulted in an error"))
         [CallGetCMState (stateKey unicodeLower pod);
          CallGetCMTemplate (templateKey pod)]
| PathSkip pod :
    Decoder.Decode (decoder hook) req = inr pod ->
    templateOf pod = "" ->
    Path req (RespOnly (admission.Allowed
                          "skipping cmstate check due to missing annotation")) []
| PathOtherOperation pod :
    Decoder.Decode (decoder hook) req = inr pod ->
    templateOf pod <> "" ->
    Request.Operation req <> v1admission.Create ->
    Request.Operation req <> v1admission.Delete ->
    Path req (RespOnly (admission.Allowed
                          "skipping cmstate check due to missing annotation"))
         [CallGetCMState (stateKey unicodeLower pod);
          CallGetCMTemplate (templateKey pod)]
| PathDeleteMissing pod :
    Decoder.Decode (decoder hook) req = inr pod ->
    templateOf pod <> "" ->
    Request.Operation req = v1admission.Delete ->
    Path req (RespOnly (admission.Allowed
                          "skipping cmstate patch due to missing cmstate"))
         [CallGetCMState (stateKey unicodeLower pod);
          CallGetCMTemplate (templateKey pod)]
| PathDeleteAbsent pod cmState :
    Decoder.Decode (decoder hook) req = inr pod ->
    templateOf pod <> "" ->
    Request.Operation req = v1admission.Delete ->
    CMState.Name cmState <> "" ->
    findIndex (CMStateSpec.Audience (CMState.Spec cmState)) (deletePodName pod)
      = -1 ->
    Path req (RespOnly (admission.Allowed
                          "skipping cmstate patch due to pod not in audience"))
         [CallGetCMState (stateKey unicodeLower pod);
          CallGetCMTemplate (templateKey pod)]
| PathDeletePatchError pod cmState err :
    Decoder.Decode (decoder hook) req = inr pod ->
    templateOf pod <> "" ->
    Request.Operation req = v1admission.Delete ->
    CMState.Name cmState <> "" ->
    findIndex (CMStateSpec.Audience (CMState.Spec cmState)) (deletePodName pod)
      <> -1 ->
    Path req (RespAndErr
                (admission.Denied "patching cmstate has resulted in an error") err)
         [CallGetCMState (stateKey unicodeLower pod);
          CallGetCMTemplate (templateKey pod);
          CallPatch
            (CMState.setAudience cmState
               (spliceOut (CMStateSpec.Audience (CMState.Spec cmState))
                  (findIndex (CMStateSpec.Audience (CMState.Spec cmState))
                     (deletePodName pod))))]
| PathDeletePatched pod cmState :
    Decoder.Decode (decoder hook) req = inr pod ->
    templateOf pod <> "" ->
    Request.Operation req = v1admission.Delete ->
    CMState.Name cmState <> "" ->
    findIndex (CMStateSpec.Audience (CMState.Spec cmState)) (deletePodName pod)
      <> -1 ->
    Path req (RespOnly (admission.Allowed
                          "cmstate has been patched, no need to mutate pod"))
         [CallGetCMState (stateKey unicodeLower pod);
          CallGetCMTemplate (templateKey pod);
          CallPatch
            (CMState.setAudience cmState
               (spliceOut (CMStateSpec.Audience (CMState.Spec cmState))
                  (findIndex (CMStateSpec.Audience (CMState.Spec cmState))
                     (deletePodName pod))))]
| PathCreateError pod cmTemplate err :
    Decoder.Decode (decoder hook) req = inr pod ->
    templateOf pod <> "" ->
    Request.Operation req = v1admission.Create ->
    Path req (RespAndErr
                (admission.Denied "creating cmstate has resulted in an error") err)
         [CallGetCMState (stateKey unicodeLower pod);
          CallGetCMTemplate (templateKey pod);
          CallCreate (generateCMState unicodeLower cmTemplate pod)]
| PathCreateNew pod cmTemplate :
    Decoder.Decode (decoder hook) req = inr pod ->
    templateOf pod <> "" ->
    Request.Operation req = v1admission.Create ->
    Path req (patchOutcome Marshal CreatePatch req pod
                (CMState.Name (generateCMState unicodeLower cmTemplate pod)))
         [CallGetCMState (stateKey unicodeLower pod);
          CallGetCMTemplate (templateKey pod);
          CallCreate (generateCMState unicodeLower cmTemplate pod)]
| PathCreateExisting pod cmState :
    Decoder.Decode (decoder hook) req = inr pod ->
    templateOf pod <> "" ->
    Request.Operation req = v1admission.Create ->
    CMState.Name cmState <> "" ->
    Path req (patchOutcome Marshal CreatePatch req pod (CMState.Name cmState))
         [CallGetCMState (stateKey unicodeLower pod);
          CallGetCMTemplate (templateKey pod)].

(** What [Handle] makes of a result of [handleInner] (lines 45-49). *)
Definition respond (r : innerResult) : Response.t :=
  match r with
  | RespOnly resp => resp
  | ErrOnly err | RespAndErr _ err =>
      admission.Errored StatusInternalServerError err
  end.

End Paths.

(** * Properties *)

(** ** Byte strings *)

Section StringFacts.

Lemma string_map_app f s t :
  string_map f (s +:+ t) = string_map f s +:+ string_map f t.
Proof. induction s as [|c s IH]; simpl; [reflexivity | now rewrite IH]. Qed.

Lemma string_map_compose f g s :
  string_map f (string_map g s) = string_map (fun c => f (g c)) s.
Proof. induction s as [|c s IH]; simpl; [reflexivity | now rewrite IH]. Qed.


Lemma string_forallb_app p s t :
  string_forallb p (s +:+ t) = string_forallb p s && string_forallb p t.
Proof.
  induction s as [|c s IH]; simpl; [reflexivity|].
  now rewrite IH, andb_assoc.
Qed.

Lemma string_forallb_map p f s :
  string_forallb p (string_map f s) = string_forallb (fun c => p (f c)) s.
Proof. induction s as [|c s IH]; simpl; [reflexivity | now rewrite IH]. Qed.

Lemma string_forallb_ext p q s :
  (forall c, p c = q c) -> string_forallb p s = string_forallb q s.
Proof.
  intros Hpq. induction s as [|c s IH]; simpl; [reflexivity|].
  now rewrite Hpq, IH.
Qed.


Lemma ReplaceAll_underscore s :
  ReplaceAll s "_" "-" = string_map underscoreToHyphen s.
Proof.
  unfold ReplaceAll. induction s as [|c s IH]; [reflexivity|].
  cbn [replaceFrom hasPrefix string_map String.length Nat.pred].
  unfold underscoreToHyphen at 1.
  rewrite (Ascii.eqb_sym "_"%char c).
  destruct (Ascii.eqb c "_"); cbn; now rewrite IH.
Qed.

(** Facts about single bytes, by enumeration of the 256 values. *)
Ltac by_bytes c :=
  destruct c as [[] [] [] [] [] [] [] []]; vm_compute; reflexivity.

Lemma isASCIIByte_underscoreToHyphen c :
  isASCIIByte (underscoreToHyphen c) = isASCIIByte c.
Proof. by_bytes c. Qed.

Lemma isASCIIByte_lowerByte c : isASCIIByte (lowerByte c) = isASCIIByte c.
Proof. by_bytes c. Qed.




Lemma isASCII_map f s :
  (forall c, isASCIIByte (f c) = isASCIIByte c) ->
  isASCII (string_map f s) = isASCII s.
Proof.
  intros Hf. unfold isASCII. rewrite string_forallb_map.
  now apply string_forallb_ext.
Qed.

Variable unicodeLower : string -> string.

Lemma ToLower_ascii s :
  isASCII s = true -> ToLower unicodeLower s = string_map lowerByte s.
Proof. intros H. unfold ToLower. now rewrite H. Qed.

(** On an ASCII name [generateName] is the prefix followed by the name,
    byte by byte lowered and with hyphens for underscores. *)
Lemma generateName_ascii T :
  isASCII T = true ->
  generateName unicodeLower T = "cmstate-" +:+ string_map normByte T.
Proof.
  intros HT. unfold generateName, Sprintf_cmstate.
  rewrite ReplaceAll_underscore, ToLower_ascii.
  - rewrite string_map_compose, string_map_app. reflexivity.
  - rewrite isASCII_map by apply isASCIIByte_underscoreToHyphen.
    unfold isASCII. rewrite string_forallb_app. exact HT.
Qed.

End StringFacts.

(** ** C4: the naming scheme *)





(** ** The audience sequence *)

Section AudienceFacts.

Implicit Types (slice : list CMAudience.t) (name : string).

Lemma findIndexFrom_shift i slice name :
  findIndexFrom i slice name = -1 /\ findIndexFrom 0 slice name = -1 \/
  findIndexFrom i slice name = i + findIndexFrom 0 slice name /\
  0 <= findIndexFrom 0 slice name < Z.of_nat (length slice).
Proof.
  revert i. induction slice as [|aud rest IH]; intros i; cbn [findIndexFrom length].
  - left. split; reflexivity.
  - destruct (String.eqb (CMAudience.Name aud) name).
    + right. lia.
    + destruct (IH (i + 1)) as [[Ha Hb]|[Ha Hb]];
        destruct (IH (0 + 1)) as [[Hc Hd]|[Hc Hd]]; lia.
Qed.

Lemma findIndex_range slice name :
  findIndex slice name = -1 \/
  0 <= findIndex slice name < Z.of_nat (length slice).
Proof.
  unfold findIndex. destruct (findIndexFrom_shift 0 slice name) as [[H _]|[_ H]];
    [left; exact H | right; exact H].
Qed.

Lemma findIndex_cons aud rest name :
  findIndex (aud :: rest) name =
    if String.eqb (CMAudience.Name aud) name then 0
    else if findIndex rest name =? -1 then -1 else 1 + findIndex rest name.
Proof.
  unfold findIndex. cbn [findIndexFrom].
  destruct (String.eqb (CMAudience.Name aud) name); [reflexivity|].
  destruct (findIndexFrom_shift (0 + 1) rest name) as [[-> ->]|[-> Hr]].
  - reflexivity.
  - destruct (Z.eqb_spec (findIndexFrom 0 rest name) (-1)); lia.
Qed.

(** A search that fails has seen every entry. *)
Lemma findIndex_absent slice name :
  findIndex slice name = -1 <->
  Forall (fun aud => CMAudience.Name aud <> name) slice.
Proof.
  induction slice as [|aud rest IH].
  - split; [constructor | reflexivity].
  - rewrite findIndex_cons, Forall_cons.
    destruct (String.eqb_spec (CMAudience.Name aud) name) as [He|Hne].
    + split; [lia | intros [Hn _]; contradiction].
    + destruct (Z.eqb_spec (findIndex rest name) (-1)) as [Hr|Hr].
      * split; [intros _; split; [exact Hne | now apply IH] | reflexivity].
      * destruct (findIndex_range rest name) as [?|?]; [contradiction|].
        split; [lia | intros [_ Hall]; apply IH in Hall; contradiction].
Qed.

(** A search that succeeds returns the position of the first entry that
    carries the name. *)
Lemma findIndex_found slice name i :
  findIndex slice name = i -> i <> -1 ->
  exists (k : nat) (aud : CMAudience.t),
    i = Z.of_nat k /\ slice !! k = Some aud /\ CMAudience.Name aud = name /\
    Forall (fun aud' => CMAudience.Name aud' <> name) (take k slice).
Proof.
  revert i. induction slice as [|aud rest IH]; intros i Hi Hne.
  - unfold findIndex in Hi; cbn in Hi. lia.
  - rewrite findIndex_cons in Hi.
    destruct (String.eqb_spec (CMAudience.Name aud) name) as [He|Hn].
    + exists O, aud. subst i. repeat split; [exact He | constructor].
    + destruct (Z.eqb_spec (findIndex rest name) (-1)) as [Hr|Hr]; [lia|].
      destruct (IH _ eq_refl Hr) as (k & aud' & Hk & Hlook & Hname & Hbefore).
      exists (S k), aud'. repeat split; [lia | exact Hlook | exact Hname |].
      cbn [take]. constructor; assumption.
Qed.

(** The splice of [handlePodDelete] drops the entry at the index and
    nothing else. *)
Lemma spliceOut_delete slice (k : nat) :
  spliceOut slice (Z.of_nat k) = delete k slice.
Proof.
  unfold spliceOut. rewrite delete_take_drop.
  replace (Z.to_nat (Z.of_nat k + 1)) with (S k) by lia.
  now rewrite Nat2Z.id.
Qed.

End AudienceFacts.


(** ** The handler, step by step *)

Section WebhookFacts.

Context {Σ : Type}.
Variable unicodeLower : string -> string.
Variable Marshal : Pod.t -> error + string.
Variable CreatePatch : string -> string -> error + list JsonPatchOperation.t.
Variable hook : cmStateCreator Σ.

Implicit Types (req : Request.t) (pod : Pod.t) (w : World Σ).
Implicit Types (cmState : CMState.t) (cmTemplate : CMTemplate.t).

Local Abbreviation handlePodCreate' :=
  (handlePodCreate unicodeLower Marshal CreatePatch hook).
Local Abbreviation handleInner' :=
  (handleInner unicodeLower Marshal CreatePatch hook).
Local Abbreviation Handle' := (Handle unicodeLower Marshal CreatePatch hook).
Local Abbreviation stateKey' := (stateKey unicodeLower).
Local Abbreviation patchOutcome' := (patchOutcome Marshal CreatePatch).

(** The world once both lookups of the resolver have been made. *)
Local Abbreviation resolved pod s w :=
  (mkWorld s (calls w ++ [CallGetCMState (stateKey' pod);
                          CallGetCMTemplate (templateKey pod)])).

Ltac run := cbv zeta; unfold Get, bind, perform, ret; cbn [store calls].

Lemma templateOf_empty pod :
  templateOf pod = "" <->
  Pod.Annotations pod !! cmtemplateAnnotation = None \/
  Pod.Annotations pod !! cmtemplateAnnotation = Some "".
Proof.
  unfold templateOf, index.
  destruct (Pod.Annotations pod !! cmtemplateAnnotation) as [v|]; cbn.
  - split; [intros ->; now right | intros [H|H]; congruence].
  - split; [now left | reflexivity].
Qed.

Lemma handleInner_decode_error req w err :
  Decoder.Decode (decoder hook) req = inl err ->
  handleInner' req w = (ErrOnly (Wrap err "error decoding request into Pod"), w).
Proof. intros Hd. unfold handleInner. now rewrite Hd. Qed.

Lemma handleInner_skip req pod w :
  Decoder.Decode (decoder hook) req = inr pod ->
  templateOf pod = "" ->
  handleInner' req w =
    (RespOnly (admission.Allowed "skipping cmstate check due to missing annotation"), w).
Proof. intros Hd Ht. unfold handleInner. rewrite Hd, Ht. reflexivity. Qed.

(** A state lookup that fails with anything but not-found ends the request
    after one read. *)
Lemma handleInner_state_error req pod w err s1 :
  Decoder.Decode (decoder hook) req = inr pod ->
  templateOf pod <> "" ->
  client.GetCMState (Client hook) (stateKey' pod) (store w) = (inl err, s1) ->
  IsNotFound err = false ->
  handleInner' req w =
    (ErrOnly (Wrap err "fetching cmstate has resulted in an error"),
     mkWorld s1 (calls w ++ [CallGetCMState (stateKey' pod)])).
Proof.
  intros Hd Ht Hs Hnf. unfold handleInner. rewrite Hd.
  destruct (String.eqb_spec (templateOf pod) "") as [|_]; [contradiction|].
  cbn [negb]. run. rewrite Hs. cbn. rewrite Hnf. reflexivity.
Qed.

(** After a tolerated state lookup the template lookup decides: an error
    ends the request, a template leads on to the operation. *)
Lemma handleInner_resolved req pod w r1 s1 r2 s2 :
  Decoder.Decode (decoder hook) req = inr pod ->
  templateOf pod <> "" ->
  client.GetCMState (Client hook) (stateKey' pod) (store w) = (r1, s1) ->
  tolerated r1 = true ->
  client.GetCMTemplate (Client hook) (templateKey pod) s1 = (r2, s2) ->
  handleInner' req w =
    match r2 with
    | inl err =>
        (ErrOnly (Wrap err "fetching cmtemplate has resulted in an error"),
         resolved pod s2 w)
    | inr cmTemplate =>
        match Request.Operation req with
        | v1admission.Create =>
            handlePodCreate' req (foundOrZero r1) cmTemplate pod (resolved pod s2 w)
        | v1admission.Delete =>
            handlePodDelete hook (foundOrZero r1) pod (resolved pod s2 w)
        | _ =>
            (RespOnly (admission.Allowed
                         "skipping cmstate check due to missing annotation"),
             resolved pod s2 w)
        end
    end.
Proof.
  intros Hd Ht Hs Htol Hg. unfold handleInner. rewrite Hd.
  destruct (String.eqb_spec (templateOf pod) "") as [|_]; [contradiction|].
  cbn [negb]. run. rewrite Hs.
  assert (Hlog : forall c1 c2 : Call,
             (calls w ++ [c1]) ++ [c2] = calls w ++ [c1; c2])
    by (intros; now rewrite <- app_assoc).
  destruct r1 as [e1|st]; cbn in Htol |- *.
  - rewrite Htol. cbn. rewrite Hg, Hlog.
    destruct r2 as [e2|tmpl]; cbn.
    + now destruct (IsNotFound e2).
    + now destruct (Request.Operation req).
  - rewrite Hg, Hlog.
    destruct r2 as [e2|tmpl]; cbn.
    + now destruct (IsNotFound e2).
    + now destruct (Request.Operation req).
Qed.

Lemma handlePodDelete_missing cmState pod w :
  CMState.Name cmState = "" ->
  handlePodDelete hook cmState pod w =
    (RespOnly (admission.Allowed "skipping cmstate patch due to missing cmstate"), w).
Proof. intros Hn. unfold handlePodDelete. now rewrite Hn. Qed.

Lemma handlePodDelete_absent cmState pod w :
  CMState.Name cmState <> "" ->
  findIndex (CMStateSpec.Audience (CMState.Spec cmState)) (deletePodName pod) = -1 ->
  handlePodDelete hook cmState pod w =
    (RespOnly (admission.Allowed "skipping cmstate patch due to pod not in audience"), w).
Proof.
  intros Hn Hi. unfold handlePodDelete.
  destruct (String.eqb_spec (CMState.Name cmState) "") as [|_]; [contradiction|].
  now rewrite Hi.
Qed.

Lemma handlePodDelete_present cmState pod w r s' :
  CMState.Name cmState <> "" ->
  findIndex (CMStateSpec.Audience (CMState.Spec cmState)) (deletePodName pod) <> -1 ->
  let patched :=
    CMState.setAudience cmState
      (spliceOut (CMStateSpec.Audience (CMState.Spec cmState))
         (findIndex (CMStateSpec.Audience (CMState.Spec cmState))
            (deletePodName pod))) in
  client.PatchMerge (Client hook) patched (store w) = (r, s') ->
  handlePodDelete hook cmState pod w =
    (match r with
     | Some err =>
         RespAndErr (admission.Denied "patching cmstate has resulted in an error") err
     | None =>
         RespOnly (admission.Allowed "cmstate has been patched, no need to mutate pod")
     end,
     mkWorld s' (calls w ++ [CallPatch patched])).
Proof.
  intros Hn Hi patched Hp. unfold handlePodDelete.
  destruct (String.eqb_spec (CMState.Name cmState) "") as [|_]; [contradiction|].
  destruct (Z.eqb_spec
              (findIndex (CMStateSpec.Audience (CMState.Spec cmState))
                 (deletePodName pod)) (-1)) as [|_]; [contradiction|].
  run. fold patched. rewrite Hp. now destruct r.
Qed.

Lemma handlePodCreate_existing req cmState cmTemplate pod w :
  CMState.Name cmState <> "" ->
  handlePodCreate' req cmState cmTemplate pod w =
    (patchOutcome' req pod (CMState.Name cmState), w).
Proof.
  intros Hn. unfold handlePodCreate, patchOutcome.
  destruct (String.eqb_spec (CMState.Name cmState) "") as [|_]; [contradiction|].
  run. now destruct (Marshal _).
Qed.

Lemma handlePodCreate_absent req cmState cmTemplate pod w r s' :
  CMState.Name cmState = "" ->
  let created := generateCMState unicodeLower cmTemplate pod in
  client.Create (Client hook) created (store w) = (r, s') ->
  handlePodCreate' req cmState cmTemplate pod w =
    (match r with
     | Some err =>
         RespAndErr (admission.Denied "creating cmstate has resulted in an error") err
     | None => patchOutcome' req pod (CMState.Name created)
     end,
     mkWorld s' (calls w ++ [CallCreate created])).
Proof.
  intros Hn created Hc. unfold handlePodCreate, patchOutcome.
  rewrite Hn. cbn [String.eqb]. run. fold created. rewrite Hc.
  destruct r; [reflexivity|]. now destruct (Marshal _).
Qed.

(** The labels of a generated state resource: one per key of the replace
    set, holding the Pod's annotation at that key. *)
Lemma generateCMState_labels cmTemplate pod (k : string) :
  CMState.Labels (generateCMState unicodeLower cmTemplate pod) !! k =
    (fun _ => index (Pod.Annotations pod) k) <$>
      (CMTemplate.AnnotationReplace cmTemplate !! k).
Proof.
  unfold generateCMState. cbn [CMState.Labels].
  apply (map_fold_weak_ind
           (fun (labels : gmap string string) (m : gmap string string) =>
              labels !! k = (fun _ => index (Pod.Annotations pod) k) <$> (m !! k))).
  - now rewrite !lookup_empty.
  - intros i x m labels Hi IH.
    destruct (decide (i = k)) as [->|Hne].
    + now rewrite !lookup_insert_eq.
    + now rewrite !lookup_insert_ne by exact Hne.
Qed.

Lemma app_three (l : list Call) (c1 c2 c3 : Call) :
  (l ++ [c1; c2]) ++ [c3] = l ++ [c1; c2; c3].
Proof. now rewrite <- app_assoc. Qed.

End WebhookFacts.


(** ** The admission decisions *)

Section Decisions.

Context {Σ : Type}.
Variable unicodeLower : string -> string.
Variable Marshal : Pod.t -> error + string.
Variable CreatePatch : string -> string -> error + list JsonPatchOperation.t.
Variable hook : cmStateCreator Σ.

Implicit Types (req : Request.t) (pod : Pod.t) (w : World Σ).
Implicit Types (cmState : CMState.t) (cmTemplate : CMTemplate.t).

Local Abbreviation handlePodCreate' :=
  (handlePodCreate unicodeLower Marshal CreatePatch hook).
Local Abbreviation handleInner' :=
  (handleInner unicodeLower Marshal CreatePatch hook).
Local Abbreviation Handle' := (Handle unicodeLower Marshal CreatePatch hook).
Local Abbreviation stateKey' := (stateKey unicodeLower).
Local Abbreviation resolved pod s w :=
  (mkWorld s (calls w ++ [CallGetCMState (stateKey' pod);
                          CallGetCMTemplate (templateKey pod)])).
Local Abbreviation audienceOf cmState :=
  (CMStateSpec.Audience (CMState.Spec cmState)).

(** [Handle] in terms of [handleInner]. *)
Lemma Handle_of_inner req w r w' :
  handleInner' req w = (r, w') ->
  Handle' req w =
    (match r with
     | RespOnly resp => resp
     | ErrOnly err | RespAndErr _ err =>
         admission.Errored StatusInternalServerError err
     end, w').
Proof. intros H. unfold Handle, bind, ret. now rewrite H. Qed.

(** C8: a Pod without the template annotation (key absent or value empty)
    is allowed, and the request reaches the store neither for a read nor
    for a write: the store and the call log are as before. *)
Theorem Handle_without_annotation req pod w :
  Decoder.Decode (decoder hook) req = inr pod ->
  Pod.Annotations pod !! cmtemplateAnnotation = None \/
  Pod.Annotations pod !! cmtemplateAnnotation = Some "" ->
  Handle' req w =
    (admission.Allowed "skipping cmstate check due to missing annotation", w) /\
  Response.Allowed (fst (Handle' req w)) = true /\
  calls (snd (Handle' req w)) = calls w /\
  store (snd (Handle' req w)) = store w.
Proof.
  intros Hd Ha. apply templateOf_empty in Ha.
  rewrite (Handle_of_inner _ _ _ _
             (handleInner_skip unicodeLower Marshal CreatePatch hook _ _ w Hd Ha)).
  repeat split.
Qed.

(** C9: a delete for which no state resource was found, or whose Pod is not
    in the audience, is allowed and issues no patch: on the delete path the
    world is untouched, and the whole request makes the two lookups of the
    resolver and nothing else. *)
Theorem delete_without_membership req pod w r1 s1 cmTemplate s2 :
  Decoder.Decode (decoder hook) req = inr pod ->
  templateOf pod <> "" ->
  Request.Operation req = v1admission.Delete ->
  client.GetCMState (Client hook) (stateKey' pod) (store w) = (r1, s1) ->
  client.GetCMTemplate (Client hook) (templateKey pod) s1 = (inr cmTemplate, s2) ->
  (exists err, r1 = inl err /\ IsNotFound err = true) \/
  (exists cmState, r1 = inr cmState /\
     findIndex (audienceOf cmState) (deletePodName pod) = -1) ->
  let reason :=
    if String.eqb (CMState.Name (foundOrZero r1)) ""
    then "skipping cmstate patch due to missing cmstate"
    else "skipping cmstate patch due to pod not in audience" in
  handlePodDelete hook (foundOrZero r1) pod w
    = (RespOnly (admission.Allowed reason), w) /\
  Handle' req w = (admission.Allowed reason, resolved pod s2 w) /\
  Response.Allowed (fst (Handle' req w)) = true /\
  Forall (fun c => isWrite c = false)
         [CallGetCMState (stateKey' pod); CallGetCMTemplate (templateKey pod)].
Proof.
  intros Hd Ht Hop Hs Hg Hcase reason.
  assert (Htol : tolerated r1 = true).
  { destruct Hcase as [(e & -> & He)|(st & -> & _)]; [exact He | reflexivity]. }
  assert (Hdel : forall w0, handlePodDelete hook (foundOrZero r1) pod w0
                            = (RespOnly (admission.Allowed reason), w0)).
  { intros w0. subst reason.
    destruct (String.eqb_spec (CMState.Name (foundOrZero r1)) "") as [He|Hne].
    - now apply handlePodDelete_missing.
    - apply handlePodDelete_absent; [exact Hne|].
      destruct Hcase as [(e & -> & _)|(st & -> & Hi)]; [now cbn in Hne | exact Hi]. }
  pose proof (handleInner_resolved unicodeLower Marshal CreatePatch hook
                _ _ w _ _ _ _ Hd Ht Hs Htol Hg) as Hin.
  cbv beta iota in Hin. rewrite Hop, Hdel in Hin.
  rewrite (Handle_of_inner _ _ _ _ Hin).
  repeat split; [apply Hdel | repeat constructor].
Qed.

(** C10: with the template annotation set and an operation other than
    Create and Delete, the request makes no write whatever the store
    answers, and once both lookups of the resolver have gone through it is
    allowed with the message of the missing annotation. *)
Theorem Handle_other_operation req pod w :
  Decoder.Decode (decoder hook) req = inr pod ->
  templateOf pod <> "" ->
  Request.Operation req <> v1admission.Create ->
  Request.Operation req <> v1admission.Delete ->
  (exists made, calls (snd (Handle' req w)) = calls w ++ made /\
                Forall (fun c => isWrite c = false) made) /\
  (forall r1 s1 cmTemplate s2,
      client.GetCMState (Client hook) (stateKey' pod) (store w) = (r1, s1) ->
      tolerated r1 = true ->
      client.GetCMTemplate (Client hook) (templateKey pod) s1
        = (inr cmTemplate, s2) ->
      Handle' req w =
        (admission.Allowed "skipping cmstate check due to missing annotation",
         resolved pod s2 w)).
Proof.
  intros Hd Ht Hc Hdl.
  assert (Hok : forall r1 s1 r2 s2,
             client.GetCMState (Client hook) (stateKey' pod) (store w) = (r1, s1) ->
             tolerated r1 = true ->
             client.GetCMTemplate (Client hook) (templateKey pod) s1 = (r2, s2) ->
             exists r, handleInner' req w = (r, resolved pod s2 w) /\
               (forall cmTemplate, r2 = inr cmTemplate ->
                  r = RespOnly (admission.Allowed
                        "skipping cmstate check due to missing annotation"))).
  { intros r1 s1 r2 s2 Hs Htol Hg.
    rewrite (handleInner_resolved unicodeLower Marshal CreatePatch hook
               _ _ w _ _ _ _ Hd Ht Hs Htol Hg).
    destruct r2 as [e2|tmpl]; [eexists; split; [reflexivity|discriminate]|].
    destruct (Request.Operation req); try contradiction;
      (eexists; split; [reflexivity | reflexivity]). }
  split.
  - destruct (client.GetCMState (Client hook) (stateKey' pod) (store w))
      as [r1 s1] eqn:Hs.
    destruct (tolerated r1) eqn:Htol.
    + destruct (client.GetCMTemplate (Client hook) (templateKey pod) s1)
        as [r2 s2] eqn:Hg.
      destruct (Hok _ _ _ _ eq_refl Htol Hg) as (r & Hin & _).
      rewrite (Handle_of_inner _ _ _ _ Hin). cbn [snd calls].
      eexists; split; [reflexivity | repeat constructor].
    + destruct r1 as [e1|st]; [|discriminate Htol]. cbn in Htol.
      rewrite (Handle_of_inner _ _ _ _
                 (handleInner_state_error unicodeLower Marshal CreatePatch hook
                    _ _ w _ _ Hd Ht Hs Htol)).
      cbn [snd calls]. eexists; split; [reflexivity | repeat constructor].
  - intros r1 s1 tmpl s2 Hs Htol Hg.
    destruct (Hok _ _ _ _ Hs Htol Hg) as (r & Hin & Hr).
    rewrite (Handle_of_inner _ _ _ _ Hin), (Hr _ eq_refl). reflexivity.
Qed.

(** C7: in the resolver a state resource reported as not found is
    tolerated, the request goes on to the operation with the empty state
    resource; a template reported as not found ends the request after the
    two lookups with an internal error. *)
Theorem resolver_not_found req pod w :
  Decoder.Decode (decoder hook) req = inr pod ->
  templateOf pod <> "" ->
  (forall e1 s1 cmTemplate s2,
      client.GetCMState (Client hook) (stateKey' pod) (store w) = (inl e1, s1) ->
      IsNotFound e1 = true ->
      client.GetCMTemplate (Client hook) (templateKey pod) s1
        = (inr cmTemplate, s2) ->
      handleInner' req w =
        match Request.Operation req with
        | v1admission.Create =>
            handlePodCreate' req CMState.zero cmTemplate pod (resolved pod s2 w)
        | v1admission.Delete =>
            handlePodDelete hook CMState.zero pod (resolved pod s2 w)
        | _ =>
            (RespOnly (admission.Allowed
                         "skipping cmstate check due to missing annotation"),
             resolved pod s2 w)
        end) /\
  (forall r1 s1 e2 s2,
      client.GetCMState (Client hook) (stateKey' pod) (store w) = (r1, s1) ->
      tolerated r1 = true ->
      client.GetCMTemplate (Client hook) (templateKey pod) s1 = (inl e2, s2) ->
      IsNotFound e2 = true ->
      handleInner' req w =
        (ErrOnly (Wrap e2 "fetching cmtemplate has resulted in an error"),
         resolved pod s2 w) /\
      Handle' req w =
        (admission.Errored StatusInternalServerError
           (Wrap e2 "fetching cmtemplate has resulted in an error"),
         resolved pod s2 w)).
Proof.
  intros Hd Ht. split.
  - intros e1 s1 tmpl s2 Hs He Hg.
    exact (handleInner_resolved unicodeLower Marshal CreatePatch hook
             _ _ w (inl e1) _ _ _ Hd Ht Hs He Hg).
  - intros r1 s1 e2 s2 Hs Htol Hg _.
    pose proof (handleInner_resolved unicodeLower Marshal CreatePatch hook
                  _ _ w _ _ _ _ Hd Ht Hs Htol Hg) as Hin.
    cbv beta iota in Hin. split; [exact Hin|].
    now rewrite (Handle_of_inner _ _ _ _ Hin).
Qed.

(** C3: a create with the template annotation set and no state resource
    found builds the state resource from the template and the Pod (name,
    namespace, one label per key of the replace set, the Pod as sole
    audience entry, the template's name as reference), submits exactly that
    object in a create call after the two lookups, and on success answers
    with the patch between the raw object and the Pod annotated with the
    state resource's name. *)
Theorem create_without_state req pod w e1 s1 cmTemplate s2 r3 s3 :
  Decoder.Decode (decoder hook) req = inr pod ->
  templateOf pod <> "" ->
  Request.Operation req = v1admission.Create ->
  client.GetCMState (Client hook) (stateKey' pod) (store w) = (inl e1, s1) ->
  IsNotFound e1 = true ->
  client.GetCMTemplate (Client hook) (templateKey pod) s1 = (inr cmTemplate, s2) ->
  let created := generateCMState unicodeLower cmTemplate pod in
  client.Create (Client hook) created s2 = (r3, s3) ->
  (CMState.Name created = generateName unicodeLower (CMTemplate.Name cmTemplate) /\
   (CMTemplate.Name cmTemplate = templateOf pod ->
    CMState.Name created = nnName (stateKey' pod)) /\
   CMState.Namespace created = Pod.Namespace pod /\
   (forall k : string,
       CMState.Labels created !! k =
         (fun _ => index (Pod.Annotations pod) k) <$>
           (CMTemplate.AnnotationReplace cmTemplate !! k)) /\
   audienceOf created =
     [ {| CMAudience.Kind := "Pod";
          CMAudience.Name := if String.eqb (Pod.Name pod) ""
                             then Pod.GenerateName pod else Pod.Name pod |} ] /\
   CMStateSpec.CMTemplate (CMState.Spec created) = CMTemplate.Name cmTemplate) /\
  snd (Handle' req w) =
    mkWorld s3 (calls w ++ [CallGetCMState (stateKey' pod);
                            CallGetCMTemplate (templateKey pod);
                            CallCreate created]) /\
  (r3 = None ->
   forall pData,
     Marshal (setAnnotation pod agentConfigmapAnnotation (CMState.Name created))
       = inr pData ->
     fst (Handle' req w) =
       admission.PatchResponseFromRaw CreatePatch (Request.Object_Raw req) pData /\
     Pod.Annotations
       (setAnnotation pod agentConfigmapAnnotation (CMState.Name created))
       !! agentConfigmapAnnotation = Some (CMState.Name created)).
Proof.
  intros Hd Ht Hop Hs He Hg created Hc.
  pose proof (handleInner_resolved unicodeLower Marshal CreatePatch hook
                _ _ w (inl e1) _ _ _ Hd Ht Hs He Hg) as Hin.
  cbv beta iota in Hin. rewrite Hop in Hin. cbn [foundOrZero] in Hin.
  rewrite (handlePodCreate_absent unicodeLower Marshal CreatePatch hook
             req CMState.zero cmTemplate pod (resolved pod s2 w) r3 s3
             eq_refl Hc) in Hin.
  cbn [calls] in Hin. rewrite app_three in Hin. fold created in Hin.
  rewrite (Handle_of_inner _ _ _ _ Hin).
  split; [|split].
  - repeat split.
    + intros Hname. unfold created, stateKey. cbn. now rewrite Hname.
    + apply generateCMState_labels.
  - reflexivity.
  - intros -> pData Hm. cbn [fst]. unfold patchOutcome. rewrite Hm.
    split; [reflexivity|]. cbn. apply lookup_insert_eq.
Qed.

(** C5: a create with the template annotation set and a state resource
    already present makes the two lookups and no write (no create call, the
    resource and its audience stay as they are), annotates the Pod with the
    name of that resource, and answers with the patch between the raw object
    and the annotated Pod; the answer is allowed and carries the diff. *)
Theorem create_with_existing_state req pod w existing s1 cmTemplate s2 pData :
  Decoder.Decode (decoder hook) req = inr pod ->
  templateOf pod <> "" ->
  Request.Operation req = v1admission.Create ->
  client.GetCMState (Client hook) (stateKey' pod) (store w) = (inr existing, s1) ->
  CMState.Name existing <> "" ->
  client.GetCMTemplate (Client hook) (templateKey pod) s1 = (inr cmTemplate, s2) ->
  let annotated :=
    setAnnotation pod agentConfigmapAnnotation (CMState.Name existing) in
  Marshal annotated = inr pData ->
  Handle' req w =
    (admission.PatchResponseFromRaw CreatePatch (Request.Object_Raw req) pData,
     resolved pod s2 w) /\
  Forall (fun c => isWrite c = false)
         [CallGetCMState (stateKey' pod); CallGetCMTemplate (templateKey pod)] /\
  Pod.Annotations annotated !! agentConfigmapAnnotation
    = Some (CMState.Name existing) /\
  (forall patches,
      CreatePatch (Request.Object_Raw req) pData = inr patches ->
      Response.Allowed (fst (Handle' req w)) = true /\
      Response.Patches (fst (Handle' req w)) = patches).
Proof.
  intros Hd Ht Hop Hs Hn Hg annotated Hm.
  pose proof (handleInner_resolved unicodeLower Marshal CreatePatch hook
                _ _ w (inr existing) _ _ _ Hd Ht Hs eq_refl Hg) as Hin.
  cbv beta iota in Hin. rewrite Hop in Hin. cbn [foundOrZero] in Hin.
  rewrite (handlePodCreate_existing unicodeLower Marshal CreatePatch hook
             req existing cmTemplate pod _ Hn) in Hin.
  unfold patchOutcome in Hin. fold annotated in Hin. rewrite Hm in Hin.
  rewrite (Handle_of_inner _ _ _ _ Hin).
  split; [reflexivity|]. split; [repeat constructor|].
  split; [apply lookup_insert_eq|].
  intros patches Hp. cbn [fst]. unfold admission.PatchResponseFromRaw.
  rewrite Hp. split; reflexivity.
Qed.


(** C2 (amended): on the delete path the name searched for in the audience
    is the Pod's generate-name when that is non-empty, and the Pod's name
    otherwise: with no entry under that name the request is allowed
    untouched, with one the patch drops the first entry under it. *)
Theorem handlePodDelete_identifying_name cmState pod w :
  CMState.Name cmState <> "" ->
  let name :=
    if String.eqb (Pod.GenerateName pod) "" then Pod.Name pod
    else Pod.GenerateName pod in
  (findIndex (audienceOf cmState) name = -1 ->
   handlePodDelete hook cmState pod w =
     (RespOnly (admission.Allowed
                  "skipping cmstate patch due to pod not in audience"), w)) /\
  (findIndex (audienceOf cmState) name <> -1 ->
   calls (snd (handlePodDelete hook cmState pod w)) =
     calls w ++ [CallPatch
                   (CMState.setAudience cmState
                      (spliceOut (audienceOf cmState)
                         (findIndex (audienceOf cmState) name)))]).
Proof.
  intros Hn name.
  assert (Hname : deletePodName pod = name).
  { unfold deletePodName, name.
    now destruct (String.eqb (Pod.GenerateName pod) ""). }
  rewrite <- Hname. split.
  - intros Hi. now apply handlePodDelete_absent.
  - intros Hi.
    destruct (client.PatchMerge (Client hook)
                (CMState.setAudience cmState
                   (spliceOut (audienceOf cmState)
                      (findIndex (audienceOf cmState) (deletePodName pod))))
                (store w)) as [r s'] eqn:Hp.
    now rewrite (handlePodDelete_present hook cmState pod w r s' Hn Hi Hp).
Qed.

(** C1: when the store refuses the create of the new state resource, or the
    merge patch of the audience, the create and delete paths build a denial
    and hand it back together with the error; [Handle] then answers with the
    internal-error response made from the error, which is no denial. *)
Theorem Handle_write_failure req pod w r1 s1 cmTemplate s2 err s3 :
  Decoder.Decode (decoder hook) req = inr pod ->
  templateOf pod <> "" ->
  client.GetCMState (Client hook) (stateKey' pod) (store w) = (r1, s1) ->
  tolerated r1 = true ->
  client.GetCMTemplate (Client hook) (templateKey pod) s1 = (inr cmTemplate, s2) ->
  (Request.Operation req = v1admission.Create /\
   CMState.Name (foundOrZero r1) = "" /\
   client.Create (Client hook) (generateCMState unicodeLower cmTemplate pod) s2
     = (Some err, s3)) \/
  (Request.Operation req = v1admission.Delete /\
   CMState.Name (foundOrZero r1) <> "" /\
   findIndex (audienceOf (foundOrZero r1)) (deletePodName pod) <> -1 /\
   client.PatchMerge (Client hook)
     (CMState.setAudience (foundOrZero r1)
        (spliceOut (audienceOf (foundOrZero r1))
           (findIndex (audienceOf (foundOrZero r1)) (deletePodName pod)))) s2
     = (Some err, s3)) ->
  (exists message,
      fst (handleInner' req w) = RespAndErr (admission.Denied message) err) /\
  fst (Handle' req w) = admission.Errored StatusInternalServerError err /\
  (forall message, fst (Handle' req w) <> admission.Denied message) /\
  Status.Message <$> Response.Result (fst (Handle' req w)) = Some (Error err).
Proof.
  intros Hd Ht Hs Htol Hg Hcase.
  pose proof (handleInner_resolved unicodeLower Marshal CreatePatch hook
                _ _ w _ _ _ _ Hd Ht Hs Htol Hg) as Hin.
  cbv beta iota in Hin.
  assert (Hres : exists message w',
             handleInner' req w = (RespAndErr (admission.Denied message) err, w')).
  { destruct Hcase as [(Hop & Hn & Hc)|(Hop & Hn & Hi & Hp)];
      rewrite Hop in Hin.
    - rewrite (handlePodCreate_absent unicodeLower Marshal CreatePatch hook
                 req _ cmTemplate pod (resolved pod s2 w) _ s3 Hn Hc) in Hin.
      eauto.
    - rewrite (handlePodDelete_present hook _ pod (resolved pod s2 w)
                 _ s3 Hn Hi Hp) in Hin.
      eauto. }
  destruct Hres as (message & w' & Hres).
  rewrite (Handle_of_inner _ _ _ _ Hres), Hres. cbn [fst].
  split; [eauto|]. split; [reflexivity|]. split; [|reflexivity].
  intros m Heq. apply (f_equal Response.Result) in Heq. cbn in Heq.
  discriminate Heq.
Qed.

End Decisions.


(** ** The decisions on a sample cluster *)

Section Samples.

Local Abbreviation run hook req s :=
  (Handle id Fake.Marshal Fake.CreatePatch hook req (Fake.fresh s)).
Local Abbreviation memHook pod := (Fake.hookOn Fake.memClient pod).

Local Abbreviation stateRead :=
  (CallGetCMState {| nnNamespace := "ns"; nnName := "cmstate-foo-bar" |}).
Local Abbreviation audienceOfSample cmState :=
  (CMStateSpec.Audience (CMState.Spec cmState)).
Local Abbreviation templateRead :=
  (CallGetCMTemplate {| nnNamespace := ""; nnName := "Foo_Bar" |}).

Lemma app1_has_template : templateOf Fake.app1 <> "".
Proof. discriminate. Qed.

Lemma app1Generated_has_template : templateOf Fake.app1Generated <> "".
Proof. discriminate. Qed.

Lemma fooBarState_named audience : CMState.Name (Fake.fooBarState audience) <> "".
Proof. discriminate. Qed.

(** C2, as stated, fails: a Pod named "app-1" with generate-name "app-" is
    searched for under "app-"; an audience that lists "app-1" is left as it
    is, although the Pod's name is not empty and occurs at position 0. *)
Lemma handlePodDelete_name_counterexample :
  Pod.Name Fake.app1Generated = "app-1" /\
  findIndex [Fake.podEntry "app-1"] (Pod.Name Fake.app1Generated) = 0 /\
  deletePodName Fake.app1Generated = "app-" /\
  handlePodDelete (memHook Fake.app1Generated)
    (Fake.fooBarState [Fake.podEntry "app-1"]) Fake.app1Generated
    (Fake.fresh (Fake.clusterWith (Fake.fooBarState [Fake.podEntry "app-1"])))
  = (RespOnly (admission.Allowed
                 "skipping cmstate patch due to pod not in audience"),
     Fake.fresh (Fake.clusterWith (Fake.fooBarState [Fake.podEntry "app-1"]))).
Proof. repeat split. Qed.

Lemma handlePodDelete_identifying_name_witness :
  calls (snd (handlePodDelete (memHook Fake.app1Generated)
                (Fake.fooBarState [Fake.podEntry "app-"]) Fake.app1Generated
                (Fake.fresh (Fake.clusterWith
                               (Fake.fooBarState [Fake.podEntry "app-"])))))
  = [CallPatch (Fake.fooBarState [])].
Proof.
  refine (proj2 (handlePodDelete_identifying_name
                   (memHook Fake.app1Generated)
                   (Fake.fooBarState [Fake.podEntry "app-"]) Fake.app1Generated
                   (Fake.fresh (Fake.clusterWith
                                  (Fake.fooBarState [Fake.podEntry "app-"])))
                   (fooBarState_named _)) _).
  vm_compute. discriminate.
Defined.

Lemma Handle_without_annotation_witness :
  run (memHook Fake.plainPod) Fake.createReq Fake.emptyCluster
  = (admission.Allowed "skipping cmstate check due to missing annotation",
     Fake.fresh Fake.emptyCluster).
Proof.
  exact (proj1 (Handle_without_annotation id Fake.Marshal Fake.CreatePatch
                  (memHook Fake.plainPod) Fake.createReq Fake.plainPod
                  (Fake.fresh Fake.emptyCluster) eq_refl (or_introl eq_refl))).
Defined.

Lemma delete_without_membership_witness :
  run (memHook Fake.app1) Fake.deleteReq Fake.emptyCluster
  = (admission.Allowed "skipping cmstate patch due to missing cmstate",
     mkWorld Fake.emptyCluster [stateRead; templateRead]).
Proof.
  refine (proj1 (proj2 (delete_without_membership id Fake.Marshal Fake.CreatePatch
                  (memHook Fake.app1) Fake.deleteReq Fake.app1
                  (Fake.fresh Fake.emptyCluster)
                  (inl Fake.notFound) Fake.emptyCluster
                  Fake.fooBarTemplate Fake.emptyCluster
                  eq_refl app1_has_template eq_refl eq_refl eq_refl _))).
  left. exists Fake.notFound. split; reflexivity.
Defined.

Lemma Handle_other_operation_witness :
  run (memHook Fake.app1) Fake.updateReq Fake.emptyCluster
  = (admission.Allowed "skipping cmstate check due to missing annotation",
     mkWorld Fake.emptyCluster [stateRead; templateRead]).
Proof.
  refine (proj2 (Handle_other_operation id Fake.Marshal Fake.CreatePatch
                   (memHook Fake.app1) Fake.updateReq Fake.app1
                   (Fake.fresh Fake.emptyCluster)
                   eq_refl app1_has_template _ _)
            (inl Fake.notFound) Fake.emptyCluster
            Fake.fooBarTemplate Fake.emptyCluster eq_refl eq_refl eq_refl);
    discriminate.
Defined.

Lemma resolver_not_found_witness :
  fst (handleInner id Fake.Marshal Fake.CreatePatch (memHook Fake.app1)
         Fake.deleteReq (Fake.fresh Fake.emptyCluster))
  = RespOnly (admission.Allowed "skipping cmstate patch due to missing cmstate") /\
  run (memHook Fake.app1) Fake.createReq Fake.clusterWithoutTemplate
  = (admission.Errored StatusInternalServerError
       (Wrap Fake.notFound "fetching cmtemplate has resulted in an error"),
     mkWorld Fake.clusterWithoutTemplate [stateRead; templateRead]).
Proof.
  split.
  - exact (f_equal fst
             (proj1 (resolver_not_found id Fake.Marshal Fake.CreatePatch
                       (memHook Fake.app1) Fake.deleteReq Fake.app1
                       (Fake.fresh Fake.emptyCluster) eq_refl app1_has_template)
                Fake.notFound Fake.emptyCluster Fake.fooBarTemplate
                Fake.emptyCluster eq_refl eq_refl eq_refl)).
  - exact (proj2
             (proj2 (resolver_not_found id Fake.Marshal Fake.CreatePatch
                       (memHook Fake.app1) Fake.createReq Fake.app1
                       (Fake.fresh Fake.clusterWithoutTemplate)
                       eq_refl app1_has_template)
                (inl Fake.notFound) Fake.clusterWithoutTemplate
                Fake.notFound Fake.clusterWithoutTemplate
                eq_refl eq_refl eq_refl eq_refl)).
Defined.

(** The state resource of the end-to-end example. *)
Lemma generated_for_app1 :
  generateCMState id Fake.fooBarTemplate Fake.app1
  = CMState.mk "cache.spices.dev/v1alpha1" "CMState" "cmstate-foo-bar" "ns"
               {[ "vault.hashicorp.com/role" := "" ]}
               (CMStateSpec.mk [Fake.podEntry "app-1"] "Foo_Bar").
Proof. reflexivity. Qed.

Lemma create_without_state_witness :
  snd (run (memHook Fake.app1) Fake.createReq Fake.emptyCluster)
  = mkWorld (Fake.clusterWith (generateCMState id Fake.fooBarTemplate Fake.app1))
            [stateRead; templateRead;
             CallCreate (generateCMState id Fake.fooBarTemplate Fake.app1)] /\
  CMState.Name (generateCMState id Fake.fooBarTemplate Fake.app1)
  = "cmstate-foo-bar" /\
  audienceOfSample (generateCMState id Fake.fooBarTemplate Fake.app1)
  = [Fake.podEntry "app-1"] /\
  Response.Allowed (fst (run (memHook Fake.app1) Fake.createReq Fake.emptyCluster))
  = true /\
  Pod.Annotations
    (setAnnotation Fake.app1 agentConfigmapAnnotation "cmstate-foo-bar")
    !! agentConfigmapAnnotation = Some "cmstate-foo-bar".
Proof.
  destruct (create_without_state id Fake.Marshal Fake.CreatePatch
              (memHook Fake.app1) Fake.createReq Fake.app1
              (Fake.fresh Fake.emptyCluster)
              Fake.notFound Fake.emptyCluster Fake.fooBarTemplate
              Fake.emptyCluster None
              (Fake.clusterWith (generateCMState id Fake.fooBarTemplate Fake.app1))
              eq_refl app1_has_template eq_refl eq_refl eq_refl eq_refl eq_refl)
    as ((Hname & _ & _ & _ & Haud & _) & Hworld & Hresp).
  destruct (Hresp eq_refl _ eq_refl) as (Hfst & Hann).
  split; [exact Hworld|]. split; [exact Hname|]. split; [exact Haud|].
  split; [now rewrite Hfst | exact Hann].
Defined.

Lemma create_with_existing_state_witness :
  snd (run (memHook Fake.app1) Fake.createReq
         (Fake.clusterWith (Fake.fooBarState [Fake.podEntry "app-0"])))
  = mkWorld (Fake.clusterWith (Fake.fooBarState [Fake.podEntry "app-0"]))
            [stateRead; templateRead] /\
  Response.Allowed
    (fst (run (memHook Fake.app1) Fake.createReq
            (Fake.clusterWith (Fake.fooBarState [Fake.podEntry "app-0"]))))
  = true /\
  Pod.Annotations
    (setAnnotation Fake.app1 agentConfigmapAnnotation "cmstate-foo-bar")
    !! agentConfigmapAnnotation = Some "cmstate-foo-bar".
Proof.
  destruct (create_with_existing_state id Fake.Marshal Fake.CreatePatch
              (memHook Fake.app1) Fake.createReq Fake.app1
              (Fake.fresh (Fake.clusterWith
                             (Fake.fooBarState [Fake.podEntry "app-0"])))
              (Fake.fooBarState [Fake.podEntry "app-0"])
              (Fake.clusterWith (Fake.fooBarState [Fake.podEntry "app-0"]))
              Fake.fooBarTemplate
              (Fake.clusterWith (Fake.fooBarState [Fake.podEntry "app-0"]))
              _
              eq_refl app1_has_template eq_refl eq_refl
              (fooBarState_named _) eq_refl eq_refl)
    as (Hrun & _ & Hann & Hallowed).
  split; [exact (f_equal snd Hrun)|].
  split; [exact (proj1 (Hallowed _ eq_refl)) | exact Hann].
Defined.


Lemma Handle_write_failure_witness :
  fst (run (Fake.hookOn (Fake.refusingClient Fake.alreadyExists) Fake.app1)
         Fake.createReq Fake.emptyCluster)
  = admission.Errored StatusInternalServerError Fake.alreadyExists /\
  fst (run (Fake.hookOn (Fake.refusingClient Fake.alreadyExists) Fake.app1)
         Fake.createReq Fake.emptyCluster)
  <> admission.Denied "creating cmstate has resulted in an error" /\
  fst (run (Fake.hookOn (Fake.refusingClient Fake.unavailable) Fake.app1)
         Fake.deleteReq
         (Fake.clusterWith (Fake.fooBarState [Fake.podEntry "app-1"])))
  = admission.Errored StatusInternalServerError Fake.unavailable.
Proof.
  destruct (Handle_write_failure id Fake.Marshal Fake.CreatePatch
              (Fake.hookOn (Fake.refusingClient Fake.alreadyExists) Fake.app1)
              Fake.createReq Fake.app1 (Fake.fresh Fake.emptyCluster)
              (inl Fake.notFound) Fake.emptyCluster Fake.fooBarTemplate
              Fake.emptyCluster Fake.alreadyExists Fake.emptyCluster
              eq_refl app1_has_template eq_refl eq_refl eq_refl
              (or_introl (conj eq_refl (conj eq_refl eq_refl))))
    as (_ & Hcreate & Hno & _).
  assert (Hfound :
            findIndex
              (audienceOfSample (Fake.fooBarState [Fake.podEntry "app-1"]))
              (deletePodName Fake.app1) <> -1)
    by (vm_compute; discriminate).
  assert (Hpatch :
            client.PatchMerge (Fake.refusingClient Fake.unavailable)
              (Fake.fooBarState [])
              (Fake.clusterWith (Fake.fooBarState [Fake.podEntry "app-1"]))
            = (Some Fake.unavailable,
               Fake.clusterWith (Fake.fooBarState [Fake.podEntry "app-1"])))
    by reflexivity.
  destruct (Handle_write_failure id Fake.Marshal Fake.CreatePatch
              (Fake.hookOn (Fake.refusingClient Fake.unavailable) Fake.app1)
              Fake.deleteReq Fake.app1
              (Fake.fresh (Fake.clusterWith
                             (Fake.fooBarState [Fake.podEntry "app-1"])))
              (inr (Fake.fooBarState [Fake.podEntry "app-1"]))
              (Fake.clusterWith (Fake.fooBarState [Fake.podEntry "app-1"]))
              Fake.fooBarTemplate
              (Fake.clusterWith (Fake.fooBarState [Fake.podEntry "app-1"]))
              Fake.unavailable
              (Fake.clusterWith (Fake.fooBarState [Fake.podEntry "app-1"]))
              eq_refl app1_has_template eq_refl eq_refl eq_refl
              (or_intror
                 (conj eq_refl
                    (conj (fooBarState_named [Fake.podEntry "app-1"])
                       (conj Hfound Hpatch)))))
    as (_ & Hdelete & _).
  split; [exact Hcreate|]. split; [apply Hno | exact Hdelete].
Defined.

(** *** Further runs *)

Example generateName_Foo_Bar : generateName id "Foo_Bar" = "cmstate-foo-bar".
Proof. reflexivity. Qed.

Example generateName_of_empty :
  generateName id "" = "cmstate-" /\ matches_cmstate_pattern "cmstate-" = false.
Proof. split; reflexivity. Qed.

Example findIndex_first_of_two :
  findIndex [Fake.podEntry "a"; Fake.podEntry "b"; Fake.podEntry "b"] "b" = 1 /\
  spliceOut [Fake.podEntry "a"; Fake.podEntry "b"; Fake.podEntry "b"] 1
  = [Fake.podEntry "a"; Fake.podEntry "b"].
Proof. split; reflexivity. Qed.

(** Create, then delete, of the same Pod: the state resource stays, with an
    empty audience. *)
Example create_then_delete :
  let created := snd (run (memHook Fake.app1) Fake.createReq Fake.emptyCluster) in
  let deleted := run (memHook Fake.app1) Fake.deleteReq (store created) in
  Fake.states (store (snd deleted)) !! ("ns", "cmstate-foo-bar")
  = Some (CMState.setAudience
            (generateCMState id Fake.fooBarTemplate Fake.app1) []) /\
  fst deleted
  = admission.Allowed "cmstate has been patched, no need to mutate pod".
Proof. split; vm_compute; reflexivity. Qed.

(** A second Pod of the same template joins no audience: the create path
    writes nothing once the state resource exists. *)
Example second_create_keeps_audience :
  store (snd (run (memHook (Pod.mk "app-2" "" "ns"
                              {[ cmtemplateAnnotation := "Foo_Bar" ]}))
                Fake.createReq
                (Fake.clusterWith (Fake.fooBarState [Fake.podEntry "app-1"]))))
  = Fake.clusterWith (Fake.fooBarState [Fake.podEntry "app-1"]).
Proof. vm_compute. reflexivity. Qed.

End Samples.


(** ** Every run of the handler *)

Section Runs.

Context {Σ : Type}.
Variable unicodeLower : string -> string.
Variable Marshal : Pod.t -> error + string.
Variable CreatePatch : string -> string -> error + list JsonPatchOperation.t.
Variable hook : cmStateCreator Σ.

Implicit Types (req : Request.t) (pod : Pod.t) (w : World Σ).
Implicit Types (cmState : CMState.t) (cmTemplate : CMTemplate.t).

Local Abbreviation handleInner' :=
  (handleInner unicodeLower Marshal CreatePatch hook).
Local Abbreviation Handle' := (Handle unicodeLower Marshal CreatePatch hook).
Local Abbreviation stateKey' := (stateKey unicodeLower).
Local Abbreviation Path' := (Path unicodeLower Marshal CreatePatch hook).
Local Abbreviation resolved pod s w :=
  (mkWorld s (calls w ++ [CallGetCMState (stateKey' pod);
                          CallGetCMTemplate (templateKey pod)])).
Local Abbreviation audienceOf cmState :=
  (CMStateSpec.Audience (CMState.Spec cmState)).

Lemma Handle_respond req w :
  Handle' req w = (respond (fst (handleInner' req w)), snd (handleInner' req w)).
Proof.
  unfold Handle, bind, ret, respond.
  now destruct (handleInner' req w) as [[resp|err|resp err] w'].
Qed.

(** Every run of [handleInner] takes one of the paths, and its calls are
    appended to the log. *)
Lemma handleInner_path req w :
  exists made,
    calls (snd (handleInner' req w)) = calls w ++ made /\
    Path' req (fst (handleInner' req w)) made.
Proof.
  destruct (Decoder.Decode (decoder hook) req) as [derr|pod] eqn:Hd.
  { rewrite (handleInner_decode_error unicodeLower Marshal CreatePatch hook
               _ w _ Hd).
    exists []. cbn. rewrite app_nil_r. split; [reflexivity | now constructor]. }
  destruct (String.eqb_spec (templateOf pod) "") as [Ht|Ht].
  { rewrite (handleInner_skip unicodeLower Marshal CreatePatch hook _ _ w Hd Ht).
    exists []. cbn. rewrite app_nil_r.
    split; [reflexivity | now apply PathSkip with pod]. }
  destruct (client.GetCMState (Client hook) (stateKey' pod) (store w))
    as [r1 s1] eqn:Hs.
  destruct (tolerated r1) eqn:Htol.
  2:{ destruct r1 as [e1|st]; [|discriminate Htol]. cbn in Htol.
      rewrite (handleInner_state_error unicodeLower Marshal CreatePatch hook
                 _ _ w _ _ Hd Ht Hs Htol).
      eexists. cbn. split; [reflexivity | now apply PathStateError]. }
  destruct (client.GetCMTemplate (Client hook) (templateKey pod) s1)
    as [r2 s2] eqn:Hg.
  rewrite (handleInner_resolved unicodeLower Marshal CreatePatch hook
             _ _ w _ _ _ _ Hd Ht Hs Htol Hg).
  destruct r2 as [e2|tmpl].
  { eexists. cbn. split; [reflexivity | now apply PathTemplateError]. }
  destruct (Request.Operation req) eqn:Hop.
  - (* Create *)
    destruct (String.eqb_spec (CMState.Name (foundOrZero r1)) "") as [Hn|Hn].
    + destruct (client.Create (Client hook)
                  (generateCMState unicodeLower tmpl pod) s2) as [r3 s3] eqn:Hc.
      rewrite (handlePodCreate_absent unicodeLower Marshal CreatePatch hook
                 req _ tmpl pod (resolved pod s2 w) r3 s3 Hn Hc).
      cbn [fst snd calls]. rewrite app_three.
      eexists. split; [reflexivity|].
      destruct r3; [now apply PathCreateError | now apply PathCreateNew].
    + rewrite (handlePodCreate_existing unicodeLower Marshal CreatePatch hook
                 req _ tmpl pod (resolved pod s2 w) Hn).
      eexists. cbn. split; [reflexivity | now apply PathCreateExisting].
  - (* Update *)
    eexists. cbn. split; [reflexivity|].
    apply PathOtherOperation; try assumption; rewrite Hop; discriminate.
  - (* Delete *)
    destruct (String.eqb_spec (CMState.Name (foundOrZero r1)) "") as [Hn|Hn].
    + rewrite (handlePodDelete_missing hook _ pod (resolved pod s2 w) Hn).
      eexists. cbn. split; [reflexivity | now apply PathDeleteMissing].
    + destruct (Z.eq_dec (findIndex (audienceOf (foundOrZero r1))
                            (deletePodName pod)) (-1)) as [Hi|Hi].
      * rewrite (handlePodDelete_absent hook _ pod (resolved pod s2 w) Hn Hi).
        eexists. cbn. split; [reflexivity|].
        now apply PathDeleteAbsent with (cmState := foundOrZero r1).
      * destruct (client.PatchMerge (Client hook)
                    (CMState.setAudience (foundOrZero r1)
                       (spliceOut (audienceOf (foundOrZero r1))
                          (findIndex (audienceOf (foundOrZero r1))
                             (deletePodName pod)))) s2) as [r3 s3] eqn:Hp.
        rewrite (handlePodDelete_present hook _ pod (resolved pod s2 w)
                   r3 s3 Hn Hi Hp).
        cbn [fst snd calls]. rewrite app_three.
        eexists. split; [reflexivity|].
        destruct r3; [now apply PathDeletePatchError | now apply PathDeletePatched].
  - (* Connect *)
    eexists. cbn. split; [reflexivity|].
    apply PathOtherOperation; try assumption; rewrite Hop; discriminate.
Qed.

(** The answer of the create path once the state resource is settled is
    allowed and carries the diff, or is an internal error. *)
Lemma respond_patchOutcome req pod name :
  (exists err,
      respond (patchOutcome Marshal CreatePatch req pod name)
      = admission.Errored StatusInternalServerError err) \/
  (exists pData patches,
      Marshal (setAnnotation pod agentConfigmapAnnotation name) = inr pData /\
      CreatePatch (Request.Object_Raw req) pData = inr patches /\
      respond (patchOutcome Marshal CreatePatch req pod name)
      = Response.mk true None patches
          (match patches with [] => None | _ :: _ => Some "JSONPatch" end)).
Proof.
  unfold patchOutcome, admission.PatchResponseFromRaw.
  destruct (Marshal _) as [err|pData] eqn:Hm; [left; now eexists|].
  cbn [respond].
  destruct (CreatePatch _ pData) as [err|patches] eqn:Hp;
    [left; now exists err | right; now exists pData, patches].
Qed.

(** X1: a request whose object does not decode into a Pod is answered with
    an internal error that carries the decoder's message behind the text
    "error decoding request into Pod", and the store is not consulted. *)
Theorem Handle_decode_failure req w err :
  Decoder.Decode (decoder hook) req = inl err ->
  Handle' req w =
    (admission.Errored StatusInternalServerError
       (Wrap err "error decoding request into Pod"), w) /\
  Response.Result (fst (Handle' req w)) =
    Some (Status.mk 500 "" ("error decoding request into Pod: " +:+ Error err)).
Proof.
  intros Hd. rewrite Handle_respond.
  rewrite (handleInner_decode_error unicodeLower Marshal CreatePatch hook
             _ w _ Hd).
  split; reflexivity.
Qed.

(** X2: when the state lookup fails with anything but not-found, the request
    ends there: an internal error with the wrapped lookup error, one read in
    the log, the template never asked for, nothing written. *)
Theorem Handle_state_read_failure req pod w err s1 :
  Decoder.Decode (decoder hook) req = inr pod ->
  templateOf pod <> "" ->
  client.GetCMState (Client hook) (stateKey' pod) (store w) = (inl err, s1) ->
  IsNotFound err = false ->
  Handle' req w =
    (admission.Errored StatusInternalServerError
       (Wrap err "fetching cmstate has resulted in an error"),
     mkWorld s1 (calls w ++ [CallGetCMState (stateKey' pod)])).
Proof.
  intros Hd Ht Hs Hnf. rewrite Handle_respond.
  now rewrite (handleInner_state_error unicodeLower Marshal CreatePatch hook
                 _ _ w _ _ Hd Ht Hs Hnf).
Qed.

(** X3: when the template lookup fails with a backend error (not a
    not-found), the request ends with an internal error carrying the wrapped
    error after exactly the two reads, whatever the operation and whether or
    not a state resource was found. *)
Theorem Handle_template_read_failure req pod w r1 s1 err s2 :
  Decoder.Decode (decoder hook) req = inr pod ->
  templateOf pod <> "" ->
  client.GetCMState (Client hook) (stateKey' pod) (store w) = (r1, s1) ->
  tolerated r1 = true ->
  client.GetCMTemplate (Client hook) (templateKey pod) s1 = (inl err, s2) ->
  IsNotFound err = false ->
  Handle' req w =
    (admission.Errored StatusInternalServerError
       (Wrap err "fetching cmtemplate has resulted in an error"),
     resolved pod s2 w).
Proof.
  intros Hd Ht Hs Htol Hg _. rewrite Handle_respond.
  now rewrite (handleInner_resolved unicodeLower Marshal CreatePatch hook
                 _ _ w _ _ _ _ Hd Ht Hs Htol Hg).
Qed.

(** X4: when the annotated Pod cannot be serialised after the state resource
    has been created, the request is answered with an internal error, and
    the create call has been made all the same: the state resource stays. *)
Theorem Handle_marshal_failure req pod w e1 s1 cmTemplate s2 s3 err :
  Decoder.Decode (decoder hook) req = inr pod ->
  templateOf pod <> "" ->
  Request.Operation req = v1admission.Create ->
  client.GetCMState (Client hook) (stateKey' pod) (store w) = (inl e1, s1) ->
  IsNotFound e1 = true ->
  client.GetCMTemplate (Client hook) (templateKey pod) s1 = (inr cmTemplate, s2) ->
  let created := generateCMState unicodeLower cmTemplate pod in
  client.Create (Client hook) created s2 = (None, s3) ->
  Marshal (setAnnotation pod agentConfigmapAnnotation (CMState.Name created))
    = inl err ->
  Handle' req w =
    (admission.Errored StatusInternalServerError
       (Wrap err "error encoding response object"),
     mkWorld s3 (calls w ++ [CallGetCMState (stateKey' pod);
                             CallGetCMTemplate (templateKey pod);
                             CallCreate created])).
Proof.
  intros Hd Ht Hop Hs He Hg created Hc Hm. rewrite Handle_respond.
  rewrite (handleInner_resolved unicodeLower Marshal CreatePatch hook
             _ _ w (inl e1) _ _ _ Hd Ht Hs He Hg).
  cbv beta iota. rewrite Hop. cbn [foundOrZero].
  rewrite (handlePodCreate_absent unicodeLower Marshal CreatePatch hook
             req CMState.zero cmTemplate pod (resolved pod s2 w) None s3
             eq_refl Hc).
  fold created. unfold patchOutcome. rewrite Hm.
  cbn [fst snd calls respond]. now rewrite app_three.
Qed.

(** X5: whatever the request and whatever the client answers, the calls of
    one request are a prefix of: the state lookup, the template lookup, one
    write.  The write is a create only for a Create request and a merge
    patch only for a Delete request; no update and no delete call is ever
    made. *)
Theorem Handle_call_shape req w :
  exists made,
    calls (snd (Handle' req w)) = calls w ++ made /\
    (made = [] \/
     exists pod,
       Decoder.Decode (decoder hook) req = inr pod /\
       templateOf pod <> "" /\
       (made = [CallGetCMState (stateKey' pod)] \/
        made = [CallGetCMState (stateKey' pod);
                CallGetCMTemplate (templateKey pod)] \/
        (exists obj,
            Request.Operation req = v1admission.Create /\
            made = [CallGetCMState (stateKey' pod);
                    CallGetCMTemplate (templateKey pod); CallCreate obj]) \/
        (exists obj,
            Request.Operation req = v1admission.Delete /\
            made = [CallGetCMState (stateKey' pod);
                    CallGetCMTemplate (templateKey pod); CallPatch obj]))).
Proof.
  destruct (handleInner_path req w) as (made & Hcalls & Hpath).
  exists made. rewrite Handle_respond. split; [exact Hcalls|].
  destruct Hpath;
    first [ now left
          | right; eexists; split; [eassumption|]; split; [assumption|];
            first [ now left
                  | right; now left
                  | right; right; left; eexists; split; [eassumption|reflexivity]
                  | right; right; right; eexists; split;
                    [eassumption|reflexivity] ] ].
Qed.

(** X6: [Handle] never answers with a denial: every response either allows
    the request or is an internal error with code 500. *)
Theorem Handle_never_denies req w :
  Response.Allowed (fst (Handle' req w)) = true \/
  (Response.Allowed (fst (Handle' req w)) = false /\
   Status.Code <$> Response.Result (fst (Handle' req w))
     = Some StatusInternalServerError).
Proof.
  destruct (handleInner_path req w) as (made & _ & Hpath).
  rewrite Handle_respond. cbn [fst].
  destruct Hpath;
    try (left; reflexivity); try (right; split; reflexivity).
  all: match goal with
       | |- context [patchOutcome _ _ ?r ?p ?n] =>
           destruct (respond_patchOutcome r p n)
             as [(e & ->)|(pData & patches & _ & _ & ->)]
       end;
    [right; split; reflexivity | left; reflexivity].
Qed.

(** X7: a response that carries patch operations answers a Create request,
    allows it, is typed as a JSON patch, and its operations are the diff
    between the raw object and the serialised Pod carrying the tracking
    annotation. *)
Theorem Handle_patch_only_for_create req w :
  Response.Patches (fst (Handle' req w)) <> [] ->
  Request.Operation req = v1admission.Create /\
  Response.Allowed (fst (Handle' req w)) = true /\
  Response.PatchType (fst (Handle' req w)) = Some "JSONPatch" /\
  exists pod name pData,
    Decoder.Decode (decoder hook) req = inr pod /\
    Marshal (setAnnotation pod agentConfigmapAnnotation name) = inr pData /\
    Pod.Annotations (setAnnotation pod agentConfigmapAnnotation name)
      !! agentConfigmapAnnotation = Some name /\
    CreatePatch (Request.Object_Raw req) pData
      = inr (Response.Patches (fst (Handle' req w))).
Proof.
  destruct (handleInner_path req w) as (made & _ & Hpath).
  rewrite Handle_respond. cbn [fst]. intros Hne.
  destruct Hpath; try (now contradiction Hne).
  all: match goal with
       | Hn : Response.Patches (respond (patchOutcome _ _ ?r ?p ?n)) <> [] |- _ =>
           destruct (respond_patchOutcome r p n)
             as [(e & He)|(pData & patches & Hm & Hp & He)];
           rewrite He in Hn |- *; [now contradiction Hn|]
       end.
  all: cbn in Hne |- *; split; [assumption|]; split; [reflexivity|];
    (split; [destruct patches; [contradiction|reflexivity]|]);
    eexists _, _, pData; split; [eassumption|]; split; [exact Hm|];
    split; [apply lookup_insert_eq | exact Hp].
Qed.

End Runs.


(** ** More on the audience sequence *)

Section AudienceInvariant.

Implicit Types (slice : list CMAudience.t) (name : string).

Local Abbreviation named name := (fun aud => CMAudience.Name aud = name).
Local Abbreviation other name := (fun aud => CMAudience.Name aud <> name).

(** The entry at the first position that carries the name is what the
    search returns. *)
Lemma findIndex_at slice name (k : nat) aud :
  slice !! k = Some aud -> CMAudience.Name aud = name ->
  Forall (other name) (take k slice) ->
  findIndex slice name = Z.of_nat k.
Proof.
  revert k. induction slice as [|a rest IH]; intros k Hlook Hname Hbefore.
  - discriminate Hlook.
  - rewrite findIndex_cons. destruct k as [|k].
    + injection Hlook as ->. apply String.eqb_eq in Hname. now rewrite Hname.
    + cbn [take] in Hbefore. apply Forall_cons in Hbefore as [Ha Hrest].
      apply String.eqb_neq in Ha. rewrite Ha.
      rewrite (IH k Hlook Hname Hrest).
      destruct (Z.eqb_spec (Z.of_nat k) (-1)); lia.
Qed.

(** A found entry splits the sequence around it. *)
Lemma findIndex_split slice name (k : nat) :
  findIndex slice name = Z.of_nat k ->
  exists aud,
    slice = take k slice ++ aud :: drop (S k) slice /\
    CMAudience.Name aud = name /\
    Forall (other name) (take k slice).
Proof.
  intros Hi.
  destruct (findIndex_found slice name _ Hi ltac:(lia))
    as (k' & aud & Hk & Hlook & Hname & Hbefore).
  apply Nat2Z.inj in Hk. subst k'.
  exists aud. split; [symmetry; now apply take_drop_middle | now split].
Qed.

(** With unique names, dropping the found entry leaves no entry of that
    name. *)
Lemma spliceOut_forgets slice name (k : nat) :
  NoDup (CMAudience.Name <$> slice) ->
  findIndex slice name = Z.of_nat k ->
  findIndex (spliceOut slice (Z.of_nat k)) name = -1.
Proof.
  intros Hnd Hi.
  destruct (findIndex_split _ _ _ Hi) as (aud & Hsplit & Hname & Hbefore).
  rewrite spliceOut_delete, delete_take_drop.
  apply findIndex_absent, Forall_app. split; [exact Hbefore|].
  rewrite Hsplit, fmap_app, fmap_cons in Hnd.
  apply NoDup_app in Hnd as (_ & _ & Hnd).
  apply NoDup_cons in Hnd as [Hnotin _].
  apply Forall_forall. intros aud' Hin Heq. apply Hnotin.
  rewrite Hname, <- Heq. now apply list_elem_of_fmap_2.
Qed.

(** X8: [findIndex] returns -1 exactly when no entry carries the name, and
    otherwise the position of the first entry that does; the result is -1
    or a valid index. *)
Theorem findIndex_first_occurrence slice name :
  (findIndex slice name = -1 <-> Forall (other name) slice) /\
  (forall k : nat,
      findIndex slice name = Z.of_nat k <->
      (exists aud, slice !! k = Some aud /\ CMAudience.Name aud = name) /\
      Forall (other name) (take k slice)) /\
  (findIndex slice name = -1 \/
   0 <= findIndex slice name < Z.of_nat (length slice)).
Proof.
  split; [apply findIndex_absent|]. split; [|apply findIndex_range].
  intros k. split.
  - intros Hi.
    destruct (findIndex_found slice name _ Hi ltac:(lia))
      as (k' & aud & Hk & Hlook & Hname & Hbefore).
    apply Nat2Z.inj in Hk. subst k'. eauto.
  - intros [(aud & Hlook & Hname) Hbefore]. now apply findIndex_at with aud.
Qed.

(** X9: on an audience with unique names, removing the found entry removes
    the name for good, keeps the names unique, and changes the membership
    of no other name. *)
Theorem spliceOut_unique_names slice name i :
  NoDup (CMAudience.Name <$> slice) ->
  findIndex slice name = i ->
  i <> -1 ->
  findIndex (spliceOut slice i) name = -1 /\
  NoDup (CMAudience.Name <$> spliceOut slice i) /\
  (forall name',
      name' <> name ->
      (findIndex (spliceOut slice i) name' = -1 <-> findIndex slice name' = -1)).
Proof.
  intros Hnd Hi Hne.
  destruct (findIndex_range slice name) as [Hr|Hr]; [congruence|].
  assert (Hk : i = Z.of_nat (Z.to_nat i)) by lia.
  rewrite Hk in Hi |- *. set (k := Z.to_nat i) in *.
  split; [now apply spliceOut_forgets|]. split.
  - rewrite spliceOut_delete, list_fmap_delete.
    eapply sublist_NoDup; [exact Hnd | apply sublist_delete].
  - intros name' Hother.
    destruct (findIndex_split _ _ _ Hi) as (aud & Hsplit & Hname & _).
    rewrite !findIndex_absent, spliceOut_delete, delete_take_drop.
    rewrite Hsplit at 3. rewrite !Forall_app, Forall_cons.
    split; [intros [? ?]; repeat split; [assumption | congruence | assumption]
           | intros [? [_ ?]]; now split].
Qed.

End AudienceInvariant.


(** ** More on names and generated state resources *)

Section GeneratedFacts.

Context {Σ : Type}.
Variable unicodeLower : string -> string.
Variable hook : cmStateCreator Σ.

Implicit Types (pod : Pod.t) (w : World Σ) (T : string).
Implicit Types (cmState : CMState.t) (cmTemplate : CMTemplate.t).

Local Abbreviation audienceOf cmState :=
  (CMStateSpec.Audience (CMState.Spec cmState)).
Local Abbreviation generateName' := (generateName unicodeLower).
Local Abbreviation generateCMState' := (generateCMState unicodeLower).

Lemma string_map_length f s : String.length (string_map f s) = String.length s.
Proof. induction s as [|c s IH]; cbn; [reflexivity | now rewrite IH]. Qed.

Lemma plainByte_normByte c : plainByte (normByte c) = true.
Proof. destruct c as [[] [] [] [] [] [] [] []]; vm_compute; reflexivity. Qed.


(** X10: on an audience with unique names a delete is not repeated: once
    the Pod's entry has been spliced out, the delete path run on the
    patched state resource allows the request and makes no call. *)
Theorem handlePodDelete_second_time cmState pod w :
  CMState.Name cmState <> "" ->
  NoDup (CMAudience.Name <$> audienceOf cmState) ->
  findIndex (audienceOf cmState) (deletePodName pod) <> -1 ->
  handlePodDelete hook
    (CMState.setAudience cmState
       (spliceOut (audienceOf cmState)
          (findIndex (audienceOf cmState) (deletePodName pod))))
    pod w
  = (RespOnly (admission.Allowed
                 "skipping cmstate patch due to pod not in audience"), w).
Proof.
  intros Hn Hnd Hi. apply handlePodDelete_absent; [exact Hn|]. cbn.
  destruct (findIndex_range (audienceOf cmState) (deletePodName pod))
    as [Hr|Hr]; [contradiction|].
  rewrite <- (Z2Nat.id (findIndex (audienceOf cmState) (deletePodName pod)))
    by lia.
  apply spliceOut_forgets; [exact Hnd | now rewrite Z2Nat.id by lia].
Qed.

(** X11: two ASCII template names derive the same state resource name
    exactly when they agree after lowering and replacing underscores by
    hyphens; they then have the same length. *)
Theorem generateName_collision T1 T2 :
  isASCII T1 = true -> isASCII T2 = true ->
  (generateName' T1 = generateName' T2 <->
   string_map normByte T1 = string_map normByte T2) /\
  (generateName' T1 = generateName' T2 -> String.length T1 = String.length T2).
Proof.
  intros H1 H2. rewrite !generateName_ascii by assumption.
  assert (Hiff : "cmstate-" +:+ string_map normByte T1
                 = "cmstate-" +:+ string_map normByte T2 <->
                 string_map normByte T1 = string_map normByte T2).
  { split; [intros H; now injection H | now intros ->]. }
  split; [exact Hiff|].
  intros H. apply Hiff in H. apply (f_equal String.length) in H.
  now rewrite !string_map_length in H.
Qed.

(** X12: the derived name of an ASCII template name starts with "cmstate-",
    is eight bytes longer than the template name, is again ASCII, and holds
    no upper-case letter and no underscore. *)
Theorem generateName_shape T :
  isASCII T = true ->
  hasPrefix (generateName' T) "cmstate-" = true /\
  String.length (generateName' T) = (8 + String.length T)%nat /\
  isASCII (generateName' T) = true /\
  string_forallb plainByte (generateName' T) = true.
Proof.
  intros HT. rewrite generateName_ascii by exact HT.
  split; [reflexivity|].
  split; [change (S (S (S (S (S (S (S (S (String.length (string_map normByte T)))))))))
                  = (8 + String.length T)%nat);
          now rewrite string_map_length|].
  split.
  - unfold isASCII in HT |- *. rewrite string_forallb_app, string_forallb_map.
    rewrite (string_forallb_ext (fun c => isASCIIByte (normByte c))
               isASCIIByte T), HT; [reflexivity|].
    intros c. unfold normByte.
    now rewrite isASCIIByte_lowerByte, isASCIIByte_underscoreToHyphen.
  - rewrite string_forallb_app, string_forallb_map.
    rewrite (string_forallb_ext _ (fun _ => true) T plainByte_normByte).
    cbn. clear HT. now induction T.
Qed.

(** X13: the labels of a generated state resource have exactly the keys of
    the template's replace set; a key the Pod does not carry gets the empty
    string, and an annotation outside the replace set gives no label. *)
Theorem generateCMState_label_keys cmTemplate pod :
  dom (CMState.Labels (generateCMState unicodeLower cmTemplate pod))
    = dom (CMTemplate.AnnotationReplace cmTemplate) /\
  (forall k : string,
      k ∈ dom (CMTemplate.AnnotationReplace cmTemplate) ->
      Pod.Annotations pod !! k = None ->
      CMState.Labels (generateCMState unicodeLower cmTemplate pod) !! k = Some "") /\
  (forall k : string,
      k ∉ dom (CMTemplate.AnnotationReplace cmTemplate) ->
      CMState.Labels (generateCMState unicodeLower cmTemplate pod) !! k = None).
Proof.
  split; [|split].
  - apply set_eq. intros k.
    now rewrite !elem_of_dom, generateCMState_labels, fmap_is_Some.
  - intros k Hk Hnone. rewrite generateCMState_labels.
    apply elem_of_dom in Hk as [v ->]. unfold index. now rewrite Hnone.
  - intros k Hk. rewrite generateCMState_labels.
    apply not_elem_of_dom in Hk. now rewrite Hk.
Qed.



End GeneratedFacts.


(** ** More runs on the sample cluster *)

Section MoreSamples.

Local Abbreviation run hook req s :=
  (Handle id Fake.Marshal Fake.CreatePatch hook req (Fake.fresh s)).
Local Abbreviation memHook pod := (Fake.hookOn Fake.memClient pod).
Local Abbreviation stateRead :=
  (CallGetCMState {| nnNamespace := "ns"; nnName := "cmstate-foo-bar" |}).
Local Abbreviation templateRead :=
  (CallGetCMTemplate {| nnNamespace := ""; nnName := "Foo_Bar" |}).
Local Abbreviation names slice := (CMAudience.Name <$> slice).

Lemma app1_annotated : templateOf Fake.app1 <> "".
Proof. discriminate. Qed.

Lemma Handle_decode_failure_witness :
  run (memHook Fake.app1) Fake.bodilessReq Fake.emptyCluster
  = (admission.Errored StatusInternalServerError
       (Wrap (errorString "there is no content to decode")
             "error decoding request into Pod"),
     Fake.fresh Fake.emptyCluster).
Proof.
  exact (proj1 (Handle_decode_failure id Fake.Marshal Fake.CreatePatch
                  (memHook Fake.app1) Fake.bodilessReq
                  (Fake.fresh Fake.emptyCluster)
                  (errorString "there is no content to decode") eq_refl)).
Defined.

Lemma Handle_state_read_failure_witness :
  run (Fake.hookOn (Fake.stateOutage Fake.unavailable) Fake.app1)
      Fake.createReq Fake.emptyCluster
  = (admission.Errored StatusInternalServerError
       (Wrap Fake.unavailable "fetching cmstate has resulted in an error"),
     mkWorld Fake.emptyCluster [stateRead]).
Proof.
  exact (Handle_state_read_failure id Fake.Marshal Fake.CreatePatch
           (Fake.hookOn (Fake.stateOutage Fake.unavailable) Fake.app1)
           Fake.createReq Fake.app1 (Fake.fresh Fake.emptyCluster)
           Fake.unavailable Fake.emptyCluster
           eq_refl app1_annotated eq_refl eq_refl).
Defined.

Lemma Handle_template_read_failure_witness :
  run (Fake.hookOn (Fake.templateOutage Fake.unavailable) Fake.app1)
      Fake.deleteReq Fake.emptyCluster
  = (admission.Errored StatusInternalServerError
       (Wrap Fake.unavailable "fetching cmtemplate has resulted in an error"),
     mkWorld Fake.emptyCluster [stateRead; templateRead]).
Proof.
  exact (Handle_template_read_failure id Fake.Marshal Fake.CreatePatch
           (Fake.hookOn (Fake.templateOutage Fake.unavailable) Fake.app1)
           Fake.deleteReq Fake.app1 (Fake.fresh Fake.emptyCluster)
           (inl Fake.notFound) Fake.emptyCluster Fake.unavailable
           Fake.emptyCluster
           eq_refl app1_annotated eq_refl eq_refl eq_refl eq_refl).
Defined.

Lemma Handle_marshal_failure_witness :
  Handle id Fake.failingMarshal Fake.CreatePatch (memHook Fake.app1)
    Fake.createReq (Fake.fresh Fake.emptyCluster)
  = (admission.Errored StatusInternalServerError
       (Wrap Fake.unsupported "error encoding response object"),
     mkWorld (Fake.clusterWith (generateCMState id Fake.fooBarTemplate Fake.app1))
             [stateRead; templateRead;
              CallCreate (generateCMState id Fake.fooBarTemplate Fake.app1)]).
Proof.
  exact (Handle_marshal_failure id Fake.failingMarshal Fake.CreatePatch
           (memHook Fake.app1) Fake.createReq Fake.app1
           (Fake.fresh Fake.emptyCluster)
           Fake.notFound Fake.emptyCluster Fake.fooBarTemplate
           Fake.emptyCluster
           (Fake.clusterWith (generateCMState id Fake.fooBarTemplate Fake.app1))
           Fake.unsupported
           eq_refl app1_annotated eq_refl eq_refl eq_refl eq_refl
           eq_refl eq_refl).
Defined.

Lemma Handle_patch_only_for_create_witness :
  Request.Operation Fake.createReq = v1admission.Create /\
  Response.Allowed (fst (run (memHook Fake.app1) Fake.createReq Fake.emptyCluster))
  = true.
Proof.
  assert (Hpatches :
            Response.Patches
              (fst (run (memHook Fake.app1) Fake.createReq Fake.emptyCluster))
            <> []) by (vm_compute; discriminate).
  destruct (Handle_patch_only_for_create id Fake.Marshal Fake.CreatePatch
              (memHook Fake.app1) Fake.createReq
              (Fake.fresh Fake.emptyCluster) Hpatches) as (Hop & Hallowed & _).
  split; [exact Hop | exact Hallowed].
Defined.

Lemma findIndex_first_occurrence_witness :
  findIndex [Fake.podEntry "a"; Fake.podEntry "b"; Fake.podEntry "b"] "b" = 1.
Proof.
  apply (proj2 (proj1 (proj2 (findIndex_first_occurrence
                                [Fake.podEntry "a"; Fake.podEntry "b";
                                 Fake.podEntry "b"] "b")) 1%nat)).
  split; [exists (Fake.podEntry "b"); split; reflexivity|].
  repeat constructor. discriminate.
Defined.

Lemma spliceOut_unique_names_witness :
  findIndex (spliceOut [Fake.podEntry "a"; Fake.podEntry "b"; Fake.podEntry "c"] 1)
            "b" = -1 /\
  NoDup (names (spliceOut [Fake.podEntry "a"; Fake.podEntry "b";
                           Fake.podEntry "c"] 1)).
Proof.
  assert (Hnd : NoDup (names [Fake.podEntry "a"; Fake.podEntry "b";
                              Fake.podEntry "c"]))
    by (cbn; repeat (apply NoDup_cons; split);
        [rewrite ?elem_of_cons, ?elem_of_nil; intuition discriminate .. | apply NoDup_nil_2]).
  destruct (spliceOut_unique_names
              [Fake.podEntry "a"; Fake.podEntry "b"; Fake.podEntry "c"] "b" 1
              Hnd eq_refl ltac:(discriminate)) as (Hgone & Hunique & _).
  split; [exact Hgone | exact Hunique].
Defined.

Lemma handlePodDelete_second_time_witness :
  handlePodDelete (memHook Fake.app1) (Fake.fooBarState []) Fake.app1
    (Fake.fresh (Fake.clusterWith (Fake.fooBarState [])))
  = (RespOnly (admission.Allowed
                 "skipping cmstate patch due to pod not in audience"),
     Fake.fresh (Fake.clusterWith (Fake.fooBarState []))).
Proof.
  assert (Hnd : NoDup (names [Fake.podEntry "app-1"]))
    by (cbn; repeat (apply NoDup_cons; split);
        [rewrite ?elem_of_cons, ?elem_of_nil; intuition discriminate .. | apply NoDup_nil_2]).
  assert (Hfound : findIndex [Fake.podEntry "app-1"] (deletePodName Fake.app1)
                   <> -1) by (vm_compute; discriminate).
  exact (handlePodDelete_second_time (memHook Fake.app1)
           (Fake.fooBarState [Fake.podEntry "app-1"]) Fake.app1
           (Fake.fresh (Fake.clusterWith (Fake.fooBarState [])))
           ltac:(discriminate) Hnd Hfound).
Defined.

Lemma generateName_collision_witness :
  generateName id "Foo_Bar" = generateName id "foo-bar".
Proof.
  exact (proj2 (proj1 (generateName_collision id "Foo_Bar" "foo-bar"
                         eq_refl eq_refl)) eq_refl).
Defined.

Lemma generateName_shape_witness :
  hasPrefix (generateName id "Foo_Bar") "cmstate-" = true /\
  String.length (generateName id "Foo_Bar") = 15%nat.
Proof.
  destruct (generateName_shape id "Foo_Bar" eq_refl) as (Hprefix & Hlen & _).
  split; [exact Hprefix | exact Hlen].
Defined.

Lemma generateCMState_label_keys_witness :
  CMState.Labels (generateCMState id Fake.fooBarTemplate Fake.app1)
    !! "vault.hashicorp.com/role" = Some "" /\
  CMState.Labels (generateCMState id Fake.fooBarTemplate Fake.app1)
    !! cmtemplateAnnotation = None.
Proof.
  destruct (generateCMState_label_keys id Fake.fooBarTemplate Fake.app1)
    as (_ & Hmissing & Houtside).
  split.
  - apply Hmissing; [apply elem_of_dom; now eexists | reflexivity].
  - apply Houtside. apply not_elem_of_dom. reflexivity.
Defined.



End MoreSamples.
